(** * mqtt-benchmark-subscriber: the measurement core

    A shallow embedding of [client.go] (the subscriber worker: [Client.Run]
    and [Client.receiveMessages]) and of the main file (result collection in
    [main] and the aggregator [calculateTotalResults]), with the properties
    of the worker, the collector and the aggregator proved over it.

    Conventions.
    - Go's [int64] (and [int] on a 64-bit target) is [Z] with the
      two's-complement wrap-around written out ([Int64.wrap]).
    - Go's [float64] is the kernel's IEEE 754 binary64 type ([float]):
      [+], [/], [<] and [>] are the IEEE operations, as in Go.
    - A Go pointer that may be [nil] is an [option]; dereferencing [None]
      panics.  A slice is a [list], indexed with stdpp's lookup and insert.
    - A channel is the list of the values sent on it, in order; a receive
      from the empty list blocks for ever.
    - The functions of other packages (GoStats, [time], [encoding/json])
      are the fields of the classes [GoStats], [GoTime] and [GoJSON]. *)

From Stdlib Require Import ZArith Lia Floats Uint63 Strings.String Strings.Byte.
From stdpp Require Import base option list gmap.

Local Open Scope Z_scope.

(** ** Machine integers *)

Module Int64.

Definition min : Z := - 2 ^ 63.
Definition max : Z := 2 ^ 63 - 1.
Definition modulus : Z := 2 ^ 64.

Definition InRange (z : Z) : Prop := min <= z <= max.

(** The representative of [z] modulo 2^64 in the signed range. *)
Definition wrap (z : Z) : Z := (z + 2 ^ 63) mod modulus - 2 ^ 63.

Definition add (a b : Z) : Z := wrap (a + b).
Definition sub (a b : Z) : Z := wrap (a - b).

(** Go's [%]: the remainder of the truncated division. *)
Definition rem (a b : Z) : Z := Z.rem a b.

End Int64.

(** ** Floating point *)

Module Float64.

Definition zero : float := 0%float.

Definition lt (a b : float) : bool := PrimFloat.ltb a b.
Definition gt (a b : float) : bool := PrimFloat.ltb b a.

(** The conversion [float64(z)] of an [int64]: round to nearest, ties to
    even.  [of_uint63] rounds that way on 0 .. 2^63-1; the rounding is
    symmetric, and -2^63 is a power of two. *)
Definition of_int64 (z : Z) : float :=
  if z =? Int64.min then (- 0x1p63)%float
  else if z <? 0 then PrimFloat.opp (PrimFloat.of_uint63 (Uint63.of_Z (- z)))
  else PrimFloat.of_uint63 (Uint63.of_Z z).

End Float64.

(** ** The data model (main file) *)

Module Payload.
Record t : Type := mk {
  GeneratedAt : Z;   (* int64, nanoseconds *)
  ClientId : Z;
  MessageId : Z
}.
(** The zero value of [var payload Payload]. *)
Definition zero : t := mk 0 0 0.
End Payload.

Module Message.
Record t : Type := mk {
  Payload : Payload.t;
  ReceivedAt : Z     (* int64, nanoseconds *)
}.
End Message.

(** [RunResults] describes results of a single client / run. *)
Module RunResults.
Record t : Type := mk {
  ID : Z;
  Successes : Z;
  RunTime : float;
  MsgTimeMin : float;
  MsgTimeMax : float;
  MsgTimeMean : float;
  MsgTimeStd : float;
  MsgsPerSec : float;
  Duplicates : Z
}.
(** [new(RunResults)]. *)
Definition zero : t :=
  mk 0 0 Float64.zero Float64.zero Float64.zero Float64.zero Float64.zero
     Float64.zero 0.
End RunResults.

(** [TotalResults] describes results of all clients / runs. *)
Module TotalResults.
Record t : Type := mk {
  Ratio : float;
  Successes : Z;
  TotalRunTime : float;
  AvgRunTime : float;
  MsgTimeMin : float;
  MsgTimeMax : float;
  MsgTimeMeanAvg : float;
  MsgTimeMeanStd : float;
  TotalMsgsPerSec : float;
  AvgMsgsPerSec : float;
  Duplicates : Z
}.
(** [new(TotalResults)]. *)
Definition zero : t :=
  mk Float64.zero 0 Float64.zero Float64.zero Float64.zero Float64.zero
     Float64.zero Float64.zero Float64.zero Float64.zero 0.
End TotalResults.

(** [Client] implements an MQTT client running benchmark test. *)
Module Client.
Record t : Type := mk {
  ID : Z;
  ClientID : string;
  BrokerURL : string;
  BrokerUser : string;
  BrokerPass : string;
  MsgTopic : string;
  ReceiveCount : Z;  (* int64 *)
  MsgQoS : Z;        (* byte *)
  Quiet : bool;
  WaitTimeout : Z;   (* time.Duration *)
  TLSConfig : option string
}.
End Client.

(** ** The packages the program imports *)

(** github.com/GaryBoone/GoStats/stats, on [[]float64]. *)
Class GoStats : Type := {
  StatsMin : list float -> float;
  StatsMax : list float -> float;
  StatsMean : list float -> float;
  StatsSampleStandardDeviation : list float -> float
}.

(** [time.Duration.Seconds], on a duration in nanoseconds. *)
Class GoTime : Type := {
  Seconds : Z -> float
}.

(** [json.Unmarshal(data, &payload)]: the payload after the call and the
    error, [None] for [nil]. *)
Class GoJSON : Type := {
  Unmarshal : list byte -> Payload.t -> Payload.t * option string
}.

(** [time.Since(started)] with the clock at [now]: [Time.Sub] saturates at
    the ends of [Duration]. *)
Definition time_Since (now started : Z) : Z :=
  let d := now - started in
  if d <? Int64.min then Int64.min
  else if Int64.max <? d then Int64.max
  else d.

(** The assignment [l[i] = x] on a slice: a panic when [i] is out of range. *)
Definition store_at {A : Type} (i : nat) (x : A) (l : list A) : option (list A) :=
  if decide (i < length l)%nat then Some (<[i := x]> l) else None.

(** [overwrite i xs l]: the slice [l] with [xs] written from index [i] on. *)
Definition overwrite {A : Type} (i : nat) (xs l : list A) : list A :=
  take i l ++ xs ++ drop (i + length xs) l.

(** The sum of a list of integers, in [Z]. *)
Definition total (zs : list Z) : Z := foldr Z.add 0 zs.

(** What [log.Printf] is called with. *)
Inductive LogLine : Type :=
  | LogTooMany (id : Z) (m : Message.t)
  | LogProgress (id receivedSoFar receiveCount : Z)
  | LogUnmarshalError (id : Z) (err : string).

(** The progress lines, as opposed to the reports of a surplus message or
    of a decoding error. *)
Definition is_progress (line : LogLine) : Prop :=
  match line with
  | LogProgress _ _ _ => True
  | _ => False
  end.

(** ** The worker: [Client.Run] (client.go) *)

(** The local variables of [Run], with the number of clock readings made so
    far and the lines logged so far. *)
Record RunState : Type := mkRunState {
  runResults : RunResults.t;
  started : option Z;                        (* *time.Time, nil at first *)
  receivedMessages : list (option Message.t); (* []*Message *)
  receivedSoFar : Z;                         (* int64 *)
  clockReads : nat;
  logged : list LogLine
}.

(** How a call of [Run] ends: it pushed [r] on the result channel and
    returned, leaving [rest] unreceived; or it waits on its channel for ever;
    or it panicked. *)
Inductive Outcome : Type :=
  | Reported (r : RunResults.t) (st : RunState) (rest : list Message.t)
  | Blocked (st : RunState)
  | Panicked.

Section Worker.

Context `{GoStats} `{GoTime}.

(** The clock: [clock k] is the reading, in nanoseconds, of the [k]-th call
    of [time.Now] or [time.Since] that the worker makes. *)
Variable clock : nat -> Z.

Variable c : Client.t.

(** [float64(message.ReceivedAt - message.Payload.GeneratedAt)] *)
Definition latency (message : Message.t) : float :=
  Float64.of_int64
    (Int64.sub (Message.ReceivedAt message)
               (Payload.GeneratedAt (Message.Payload message))).

(** [for i, message := range receivedMessages { latencies[i] = ... }] *)
Fixpoint fill_latencies (i : nat) (messages : list (option Message.t))
    (latencies : list float) : option (list float) :=
  match messages with
  | [] => Some latencies
  | None :: _ => None
  | Some message :: rest =>
      latencies' ← store_at i (latency message) latencies;
      fill_latencies (S i) rest latencies'
  end.

(** "Capture message" and "Count all received messages". *)
Definition capture (m : Message.t) (st : RunState) : option RunState :=
  let n := receivedSoFar st in
  if n <? Client.ReceiveCount c then
    if 0 <=? n then
      slots ← store_at (Z.to_nat n) (Some m) (receivedMessages st);
      Some (mkRunState (runResults st) (started st) slots
              (Int64.add n 1) (clockReads st) (logged st))
    else None
  else
    Some (mkRunState (runResults st) (started st) (receivedMessages st)
            (Int64.add n 1) (clockReads st)
            (logged st ++ [LogTooMany (Client.ID c) m])).

(** "Start counting from the first received message". *)
Definition latch (st : RunState) : RunState :=
  match started st with
  | None =>
      mkRunState (runResults st) (Some (clock (clockReads st)))
        (receivedMessages st) (receivedSoFar st) (S (clockReads st))
        (logged st)
  | Some _ => st
  end.

(** "Print progress every so often". *)
Definition progress (st : RunState) : RunState :=
  if Int64.rem (receivedSoFar st) 100 =? 0 then
    mkRunState (runResults st) (started st) (receivedMessages st)
      (receivedSoFar st) (clockReads st)
      (logged st ++ [LogProgress (Client.ID c) (receivedSoFar st)
                                 (Client.ReceiveCount c)])
  else st.

(** The body of [if receivedSoFar >= c.ReceiveCount]: the results. *)
Definition calculate (st : RunState) : option (RunState * RunResults.t) :=
  latencies ← fill_latencies 0 (receivedMessages st)
                (replicate (Z.to_nat (Client.ReceiveCount c)) Float64.zero);
  began ← started st;
  let r := runResults st in
  let successes := Z.of_nat (length (receivedMessages st)) in
  let duration := time_Since (clock (clockReads st)) began in
  let r' :=
    RunResults.mk
      (RunResults.ID r)
      successes
      (Seconds duration)
      (StatsMin latencies)
      (StatsMax latencies)
      (StatsMean latencies)
      (if 1 <? Client.ReceiveCount c
       then StatsSampleStandardDeviation latencies
       else RunResults.MsgTimeStd r)
      (Float64.of_int64 successes / Seconds duration)%float
      (Int64.sub (receivedSoFar st) (Client.ReceiveCount c)) in
  Some (mkRunState r' (started st) (receivedMessages st) (receivedSoFar st)
          (S (clockReads st)) (logged st), r').

(** One turn of the [for] loop on the message [m]: the next state and,
    when the worker is done, its results. *)
Definition iteration (m : Message.t) (st : RunState)
    : option (RunState * option RunResults.t) :=
  st1 ← capture m st;
  let st2 := progress (latch st1) in
  if Client.ReceiveCount c <=? receivedSoFar st2 then
    '(st3, r) ← calculate st2;
    Some (st3, Some r)
  else Some (st2, None).

(** The [for] loop over the channel [received]. *)
Fixpoint Run_loop (received : list Message.t) (st : RunState) : Outcome :=
  match received with
  | [] => Blocked st
  | m :: rest =>
      match iteration m st with
      | None => Panicked
      | Some (st', Some r) => Reported r st' rest
      | Some (st', None) => Run_loop rest st'
      end
  end.

(** The state before the loop: [runResults.ID = c.ID], the slot array of
    [c.ReceiveCount] nil pointers, [receivedSoFar = 0]. *)
Definition Run_init : RunState :=
  mkRunState
    (RunResults.mk (Client.ID c) 0 Float64.zero Float64.zero Float64.zero
       Float64.zero Float64.zero Float64.zero 0)
    None
    (replicate (Z.to_nat (Client.ReceiveCount c)) None)
    0 0%nat [].

(** [Run]; [make] panics on a negative length.  Whether the machine can
    allocate the slot array is not decided here: see [Run_on_machine]. *)
Definition Run (received : list Message.t) : Outcome :=
  if Client.ReceiveCount c <? 0 then Panicked
  else Run_loop received Run_init.

(** The latency sample set of the messages [ms]. *)
Definition latencies_of (ms : list Message.t) : list float :=
  latency <$> ms.

(** The slot array when the messages [pre], and no more, are stored. *)
Definition slots (pre : list Message.t) : list (option Message.t) :=
  (Some <$> pre)
  ++ replicate (Z.to_nat (Client.ReceiveCount c) - length pre) None.

(** The results of a worker that started from the record [r0], stored the
    messages [stored] and measured [duration] from its first message to
    its last. *)
Definition results_of (r0 : RunResults.t) (stored : list Message.t)
    (duration : Z) : RunResults.t :=
  {| RunResults.ID := RunResults.ID r0;
     RunResults.Successes := Z.of_nat (length stored);
     RunResults.RunTime := Seconds duration;
     RunResults.MsgTimeMin := StatsMin (latencies_of stored);
     RunResults.MsgTimeMax := StatsMax (latencies_of stored);
     RunResults.MsgTimeMean := StatsMean (latencies_of stored);
     RunResults.MsgTimeStd :=
       if 1 <? Client.ReceiveCount c
       then StatsSampleStandardDeviation (latencies_of stored)
       else RunResults.MsgTimeStd r0;
     RunResults.MsgsPerSec :=
       (Float64.of_int64 (Z.of_nat (length stored)) / Seconds duration)%float;
     RunResults.Duplicates := 0 |}.

End Worker.

(** ** The subscriber callback: [Client.receiveMessages] (client.go) *)

(** An inbound frame: the bytes of [msg.Payload()] and what [time.Now()
    .UnixNano()] reads when the callback handles it. *)
Record Frame : Type := mkFrame {
  frame_payload : list byte;
  frame_now : Z
}.

(** What the callback does with a frame: it sends a message on [received],
    or it only logs. *)
Inductive Delivery : Type :=
  | Sent (m : Message.t)
  | Dropped (line : LogLine).

Section Subscriber.

Context `{GoJSON}.

Variable c : Client.t.

(** [onMessage] *)
Definition onMessage (msg : Frame) : Delivery :=
  let '(payload, err) := Unmarshal (frame_payload msg) Payload.zero in
  match err with
  | Some e => Dropped (LogUnmarshalError (Client.ID c) e)
  | None => Sent (Message.mk payload (frame_now msg))
  end.

(** The subscriber on the frames the broker delivers, in order: what it
    sends on [received] and what it logs, as long as its sends are taken.
    The channel is unbuffered: [Run] takes a prefix of what is sent here,
    and a send that comes after [Run] returned blocks the callback for
    ever.  Connecting and subscribing are the MQTT client's; their errors
    are logged and change nothing here. *)
Fixpoint receiveMessages (frames : list Frame)
    : list Message.t * list LogLine :=
  match frames with
  | [] => ([], [])
  | msg :: rest =>
      let '(received, lines) := receiveMessages rest in
      match onMessage msg with
      | Sent m => (m :: received, lines)
      | Dropped line => (received, line :: lines)
      end
  end.

End Subscriber.

(** A worker on the frames of its subscription: [Run] with the subscriber
    started by [go c.receiveMessages(received)]. *)
Definition worker `{GoStats} `{GoTime} `{GoJSON}
    (clock : nat -> Z) (c : Client.t) (frames : list Frame) : Outcome :=
  Run clock c (receiveMessages c frames).1.

(** ** The allocator

    [make] of a slice panics on a negative length and on a length above
    what the runtime can address, and the process dies when the memory is
    not to be had.  [allocates n] says that the machine on which the
    program runs allocates a slice of [n] words (pointers or floats). *)
Class GoRuntime : Type := {
  allocates : Z -> bool
}.

(** [Run] on that machine: when the slot array of [ReceiveCount] pointers
    cannot be allocated, the call ends there, before the loop; [Run]
    itself is the call on a machine that allocates it. *)
Definition Run_on_machine `{GoStats} `{GoTime} `{GoRuntime}
    (clock : nat -> Z) (c : Client.t) (received : list Message.t) : Outcome :=
  if allocates (Client.ReceiveCount c) then Run clock c received
  else Panicked.

(** ** The aggregator: [calculateTotalResults] (main file) *)

(** The variables of the loop of [calculateTotalResults]. *)
Record AggState : Type := mkAggState {
  totals : TotalResults.t;
  msgTimeMeans : list float;
  msgsPerSecs : list float;
  runTimes : list float;
  bws : list float
}.

Section Aggregator.

Context `{GoStats} `{GoTime}.

(** What the body of [for i, res := range results] does to [totals]. *)
Definition accumulate_totals (t : TotalResults.t) (res : RunResults.t)
    : TotalResults.t :=
  {| TotalResults.Ratio := TotalResults.Ratio t;
     TotalResults.Successes :=
       Int64.add (TotalResults.Successes t) (RunResults.Successes res);
     TotalResults.TotalRunTime := TotalResults.TotalRunTime t;
     TotalResults.AvgRunTime := TotalResults.AvgRunTime t;
     TotalResults.MsgTimeMin :=
       if Float64.lt (RunResults.MsgTimeMin res) (TotalResults.MsgTimeMin t)
       then RunResults.MsgTimeMin res else TotalResults.MsgTimeMin t;
     TotalResults.MsgTimeMax :=
       if Float64.gt (RunResults.MsgTimeMax res) (TotalResults.MsgTimeMax t)
       then RunResults.MsgTimeMax res else TotalResults.MsgTimeMax t;
     TotalResults.MsgTimeMeanAvg := TotalResults.MsgTimeMeanAvg t;
     TotalResults.MsgTimeMeanStd := TotalResults.MsgTimeMeanStd t;
     TotalResults.TotalMsgsPerSec :=
       (TotalResults.TotalMsgsPerSec t + RunResults.MsgsPerSec res)%float;
     TotalResults.AvgMsgsPerSec := TotalResults.AvgMsgsPerSec t;
     TotalResults.Duplicates :=
       Int64.add (TotalResults.Duplicates t) (RunResults.Duplicates res) |}.

(** The body of [for i, res := range results]. *)
Definition accumulate (i : nat) (res : RunResults.t) (s : AggState)
    : option AggState :=
  means ← store_at i (RunResults.MsgTimeMean res) (msgTimeMeans s);
  perSecs ← store_at i (RunResults.MsgsPerSec res) (msgsPerSecs s);
  times ← store_at i (RunResults.RunTime res) (runTimes s);
  bws' ← store_at i (RunResults.MsgsPerSec res) (bws s);
  Some (mkAggState (accumulate_totals (totals s) res) means perSecs times
          bws').

Fixpoint aggregate_loop (i : nat) (results : list (option RunResults.t))
    (s : AggState) : option AggState :=
  match results with
  | [] => Some s
  | None :: _ => None
  | Some res :: rest =>
      s' ← accumulate i res s;
      aggregate_loop (S i) rest s'
  end.

(** [totals] before the loop: [new(TotalResults)] with [TotalRunTime] and
    [MsgTimeMin] assigned. *)
Definition initial_totals (first : RunResults.t) (totalTime : Z)
    : TotalResults.t :=
  {| TotalResults.Ratio := Float64.zero;
     TotalResults.Successes := 0;
     TotalResults.TotalRunTime := Seconds totalTime;
     TotalResults.AvgRunTime := Float64.zero;
     TotalResults.MsgTimeMin := RunResults.MsgTimeMin first;
     TotalResults.MsgTimeMax := Float64.zero;
     TotalResults.MsgTimeMeanAvg := Float64.zero;
     TotalResults.MsgTimeMeanStd := Float64.zero;
     TotalResults.TotalMsgsPerSec := Float64.zero;
     TotalResults.AvgMsgsPerSec := Float64.zero;
     TotalResults.Duplicates := 0 |}.

(** [totals] after the loop, with the means and the deviation assigned. *)
Definition final_totals (s : AggState) (sampleSize : Z) : TotalResults.t :=
  let t := totals s in
  {| TotalResults.Ratio := TotalResults.Ratio t;
     TotalResults.Successes := TotalResults.Successes t;
     TotalResults.TotalRunTime := TotalResults.TotalRunTime t;
     TotalResults.AvgRunTime := StatsMean (runTimes s);
     TotalResults.MsgTimeMin := TotalResults.MsgTimeMin t;
     TotalResults.MsgTimeMax := TotalResults.MsgTimeMax t;
     TotalResults.MsgTimeMeanAvg := StatsMean (msgTimeMeans s);
     TotalResults.MsgTimeMeanStd :=
       if 1 <? sampleSize
       then StatsSampleStandardDeviation (msgTimeMeans s)
       else TotalResults.MsgTimeMeanStd t;
     TotalResults.TotalMsgsPerSec := TotalResults.TotalMsgsPerSec t;
     TotalResults.AvgMsgsPerSec := StatsMean (msgsPerSecs s);
     TotalResults.Duplicates := TotalResults.Duplicates t |}.

(** [calculateTotalResults(results, totalTime, sampleSize)], [None] when
    it panics ([results[0]] out of range, or a nil pointer). *)
Definition calculateTotalResults (results : list (option RunResults.t))
    (totalTime : Z) (sampleSize : Z) : option TotalResults.t :=
  let zeros := replicate (length results) Float64.zero in
  first ← mjoin (results !! 0%nat);
  s ← aggregate_loop 0 results
        (mkAggState (initial_totals first totalTime) zeros zeros zeros zeros);
  Some (final_totals s sampleSize).

End Aggregator.

(** ** The aggregator on the heap

    [calculateTotalResults] as the code runs it.  [results] holds pointers
    to [RunResults] structs; [totals] is a new [TotalResults] struct,
    written field by field; the four slices are new arrays, written index
    by index, if the machine allocates them; the value returned is the
    pointer [totals]. *)

(** The heap, by the type of its objects: a pointer is an address in the
    map of its type, and [make] and [new] take an address that is free. *)
Record Store : Type := mkStore {
  runResultsAt : gmap nat RunResults.t;
  totalResultsAt : gmap nat TotalResults.t;
  floatsAt : gmap nat (list float)
}.

(** A computation on the heap; [None] is a panic. *)
Definition Exec (A : Type) : Type := Store -> option (A * Store).

Definition Exec_ret {A : Type} (a : A) : Exec A := λ σ, Some (a, σ).

Definition Exec_bind {A B : Type} (m : Exec A) (k : A -> Exec B) : Exec B :=
  λ σ, match m σ with
       | None => None
       | Some (a, σ') => k a σ'
       end.

Notation "'let!' x ':=' m 'in' k" := (Exec_bind m (λ x, k))
  (at level 10, x name, m at level 100, k at level 200).

(** [new(TotalResults)] *)
Definition new_TotalResults : Exec nat :=
  λ σ, let p := fresh (dom (totalResultsAt σ)) in
       Some (p, mkStore (runResultsAt σ)
                  (<[p := TotalResults.zero]> (totalResultsAt σ))
                  (floatsAt σ)).

(** [make([]float64, n)], on a machine that allocates [n] floats or does
    not. *)
Definition make_floats `{GoRuntime} (n : nat) : Exec nat :=
  λ σ, if allocates (Z.of_nat n) then
         let p := fresh (dom (floatsAt σ)) in
         Some (p, mkStore (runResultsAt σ) (totalResultsAt σ)
                    (<[p := replicate n Float64.zero]> (floatsAt σ)))
       else None.

(** The struct behind a [*RunResults], nil or not. *)
Definition deref (runs : gmap nat RunResults.t) (p : option nat)
    : option RunResults.t :=
  match p with
  | None => None
  | Some l => runs !! l
  end.

(** A read through a [*RunResults]. *)
Definition read_RunResults (p : option nat) : Exec RunResults.t :=
  λ σ, match deref (runResultsAt σ) p with
       | None => None
       | Some r => Some (r, σ)
       end.

(** Assignments to the fields of [*p], a [TotalResults]. *)
Definition update_TotalResults (p : nat)
    (assign : TotalResults.t -> TotalResults.t) : Exec unit :=
  λ σ, match totalResultsAt σ !! p with
       | None => None
       | Some t =>
           Some (tt, mkStore (runResultsAt σ)
                       (<[p := assign t]> (totalResultsAt σ)) (floatsAt σ))
       end.

(** The slice at [p], read as a whole. *)
Definition read_floats (p : nat) : Exec (list float) :=
  λ σ, match floatsAt σ !! p with
       | None => None
       | Some data => Some (data, σ)
       end.

(** [p[i] = x] *)
Definition write_float (p i : nat) (x : float) : Exec unit :=
  λ σ, match floatsAt σ !! p with
       | None => None
       | Some data =>
           match store_at i x data with
           | None => None
           | Some data' =>
               Some (tt, mkStore (runResultsAt σ) (totalResultsAt σ)
                           (<[p := data']> (floatsAt σ)))
           end
       end.

(** The assignments to single fields of [totals]. *)
Definition set_TotalRunTime (v : float) (t : TotalResults.t) : TotalResults.t :=
  {| TotalResults.Ratio := TotalResults.Ratio t;
     TotalResults.Successes := TotalResults.Successes t;
     TotalResults.TotalRunTime := v;
     TotalResults.AvgRunTime := TotalResults.AvgRunTime t;
     TotalResults.MsgTimeMin := TotalResults.MsgTimeMin t;
     TotalResults.MsgTimeMax := TotalResults.MsgTimeMax t;
     TotalResults.MsgTimeMeanAvg := TotalResults.MsgTimeMeanAvg t;
     TotalResults.MsgTimeMeanStd := TotalResults.MsgTimeMeanStd t;
     TotalResults.TotalMsgsPerSec := TotalResults.TotalMsgsPerSec t;
     TotalResults.AvgMsgsPerSec := TotalResults.AvgMsgsPerSec t;
     TotalResults.Duplicates := TotalResults.Duplicates t |}.

Definition set_MsgTimeMin (v : float) (t : TotalResults.t) : TotalResults.t :=
  {| TotalResults.Ratio := TotalResults.Ratio t;
     TotalResults.Successes := TotalResults.Successes t;
     TotalResults.TotalRunTime := TotalResults.TotalRunTime t;
     TotalResults.AvgRunTime := TotalResults.AvgRunTime t;
     TotalResults.MsgTimeMin := v;
     TotalResults.MsgTimeMax := TotalResults.MsgTimeMax t;
     TotalResults.MsgTimeMeanAvg := TotalResults.MsgTimeMeanAvg t;
     TotalResults.MsgTimeMeanStd := TotalResults.MsgTimeMeanStd t;
     TotalResults.TotalMsgsPerSec := TotalResults.TotalMsgsPerSec t;
     TotalResults.AvgMsgsPerSec := TotalResults.AvgMsgsPerSec t;
     TotalResults.Duplicates := TotalResults.Duplicates t |}.

Definition set_AvgMsgsPerSec (v : float) (t : TotalResults.t) : TotalResults.t :=
  {| TotalResults.Ratio := TotalResults.Ratio t;
     TotalResults.Successes := TotalResults.Successes t;
     TotalResults.TotalRunTime := TotalResults.TotalRunTime t;
     TotalResults.AvgRunTime := TotalResults.AvgRunTime t;
     TotalResults.MsgTimeMin := TotalResults.MsgTimeMin t;
     TotalResults.MsgTimeMax := TotalResults.MsgTimeMax t;
     TotalResults.MsgTimeMeanAvg := TotalResults.MsgTimeMeanAvg t;
     TotalResults.MsgTimeMeanStd := TotalResults.MsgTimeMeanStd t;
     TotalResults.TotalMsgsPerSec := TotalResults.TotalMsgsPerSec t;
     TotalResults.AvgMsgsPerSec := v;
     TotalResults.Duplicates := TotalResults.Duplicates t |}.

Definition set_AvgRunTime (v : float) (t : TotalResults.t) : TotalResults.t :=
  {| TotalResults.Ratio := TotalResults.Ratio t;
     TotalResults.Successes := TotalResults.Successes t;
     TotalResults.TotalRunTime := TotalResults.TotalRunTime t;
     TotalResults.AvgRunTime := v;
     TotalResults.MsgTimeMin := TotalResults.MsgTimeMin t;
     TotalResults.MsgTimeMax := TotalResults.MsgTimeMax t;
     TotalResults.MsgTimeMeanAvg := TotalResults.MsgTimeMeanAvg t;
     TotalResults.MsgTimeMeanStd := TotalResults.MsgTimeMeanStd t;
     TotalResults.TotalMsgsPerSec := TotalResults.TotalMsgsPerSec t;
     TotalResults.AvgMsgsPerSec := TotalResults.AvgMsgsPerSec t;
     TotalResults.Duplicates := TotalResults.Duplicates t |}.

Definition set_MsgTimeMeanAvg (v : float) (t : TotalResults.t) : TotalResults.t :=
  {| TotalResults.Ratio := TotalResults.Ratio t;
     TotalResults.Successes := TotalResults.Successes t;
     TotalResults.TotalRunTime := TotalResults.TotalRunTime t;
     TotalResults.AvgRunTime := TotalResults.AvgRunTime t;
     TotalResults.MsgTimeMin := TotalResults.MsgTimeMin t;
     TotalResults.MsgTimeMax := TotalResults.MsgTimeMax t;
     TotalResults.MsgTimeMeanAvg := v;
     TotalResults.MsgTimeMeanStd := TotalResults.MsgTimeMeanStd t;
     TotalResults.TotalMsgsPerSec := TotalResults.TotalMsgsPerSec t;
     TotalResults.AvgMsgsPerSec := TotalResults.AvgMsgsPerSec t;
     TotalResults.Duplicates := TotalResults.Duplicates t |}.

Definition set_MsgTimeMeanStd (v : float) (t : TotalResults.t) : TotalResults.t :=
  {| TotalResults.Ratio := TotalResults.Ratio t;
     TotalResults.Successes := TotalResults.Successes t;
     TotalResults.TotalRunTime := TotalResults.TotalRunTime t;
     TotalResults.AvgRunTime := TotalResults.AvgRunTime t;
     TotalResults.MsgTimeMin := TotalResults.MsgTimeMin t;
     TotalResults.MsgTimeMax := TotalResults.MsgTimeMax t;
     TotalResults.MsgTimeMeanAvg := TotalResults.MsgTimeMeanAvg t;
     TotalResults.MsgTimeMeanStd := v;
     TotalResults.TotalMsgsPerSec := TotalResults.TotalMsgsPerSec t;
     TotalResults.AvgMsgsPerSec := TotalResults.AvgMsgsPerSec t;
     TotalResults.Duplicates := TotalResults.Duplicates t |}.

(** The addresses of the four slices of [calculateTotalResults]. *)
Record Slices : Type := mkSlices {
  at_msgTimeMeans : nat;
  at_msgsPerSecs : nat;
  at_runTimes : nat;
  at_bws : nat
}.

Section AggregatorOnHeap.

Context `{GoStats} `{GoTime} `{GoRuntime}.

(** The body of [for i, res := range results], with [totals] and the
    slices on the heap. *)
Definition accumulate_on (totals : nat) (slices : Slices) (i : nat)
    (res : RunResults.t) : Exec unit :=
  let! _ := update_TotalResults totals (λ t, accumulate_totals t res) in
  let! _ := write_float (at_msgTimeMeans slices) i
              (RunResults.MsgTimeMean res) in
  let! _ := write_float (at_msgsPerSecs slices) i
              (RunResults.MsgsPerSec res) in
  let! _ := write_float (at_runTimes slices) i (RunResults.RunTime res) in
  write_float (at_bws slices) i (RunResults.MsgsPerSec res).

(** [for i, res := range results { ... }] *)
Fixpoint aggregate_loop_on (totals : nat) (slices : Slices) (i : nat)
    (results : list (option nat)) : Exec unit :=
  match results with
  | [] => Exec_ret tt
  | p :: rest =>
      let! res := read_RunResults p in
      let! _ := accumulate_on totals slices i res in
      aggregate_loop_on totals slices (S i) rest
  end.

(** [calculateTotalResults(results, totalTime, sampleSize)] on the heap:
    the pointer returned and the heap after the call. *)
Definition calculateTotalResults_on (results : list (option nat))
    (totalTime : Z) (sampleSize : Z) : Exec nat :=
  let! totals := new_TotalResults in
  let! _ := update_TotalResults totals (set_TotalRunTime (Seconds totalTime)) in
  let! msgTimeMeans := make_floats (length results) in
  let! msgsPerSecs := make_floats (length results) in
  let! runTimes := make_floats (length results) in
  let! bws := make_floats (length results) in
  let! first := read_RunResults (mjoin (results !! 0%nat)) in
  let! _ := update_TotalResults totals
              (set_MsgTimeMin (RunResults.MsgTimeMin first)) in
  let! _ := aggregate_loop_on totals
              (mkSlices msgTimeMeans msgsPerSecs runTimes bws) 0 results in
  let! perSecs := read_floats msgsPerSecs in
  let! _ := update_TotalResults totals (set_AvgMsgsPerSec (StatsMean perSecs)) in
  let! times := read_floats runTimes in
  let! _ := update_TotalResults totals (set_AvgRunTime (StatsMean times)) in
  let! means := read_floats msgTimeMeans in
  let! _ := update_TotalResults totals (set_MsgTimeMeanAvg (StatsMean means)) in
  let! _ := (if 1 <? sampleSize
             then let! means' := read_floats msgTimeMeans in
                  update_TotalResults totals
                    (set_MsgTimeMeanStd (StatsSampleStandardDeviation means'))
             else Exec_ret tt) in
  Exec_ret totals.

End AggregatorOnHeap.

(** What a call leaves alone: every struct and every array that was on the
    heap before it is there after it, with the same contents. *)
Definition untouched (σ σ' : Store) : Prop :=
  runResultsAt σ' = runResultsAt σ
  /\ totalResultsAt σ ⊆ totalResultsAt σ'
  /\ floatsAt σ ⊆ floatsAt σ'.

(** The loop's variables on the heap: [totals] and the four slices, at
    four different addresses. *)
Definition holds (σ : Store) (at_totals : nat) (slices : Slices)
    (s : AggState) : Prop :=
  totalResultsAt σ !! at_totals = Some (totals s)
  /\ floatsAt σ !! at_msgTimeMeans slices = Some (msgTimeMeans s)
  /\ floatsAt σ !! at_msgsPerSecs slices = Some (msgsPerSecs s)
  /\ floatsAt σ !! at_runTimes slices = Some (runTimes s)
  /\ floatsAt σ !! at_bws slices = Some (bws s)
  /\ NoDup [at_msgTimeMeans slices; at_msgsPerSecs slices;
            at_runTimes slices; at_bws slices].

(** What the loop writes: [totals] and the four slices, nothing else. *)
Definition writes_only (σ σ' : Store) (at_totals : nat) (slices : Slices)
    : Prop :=
  runResultsAt σ' = runResultsAt σ
  /\ (forall l, l <> at_totals ->
       totalResultsAt σ' !! l = totalResultsAt σ !! l)
  /\ (forall l, l ∉ [at_msgTimeMeans slices; at_msgsPerSecs slices;
                      at_runTimes slices; at_bws slices] ->
       floatsAt σ' !! l = floatsAt σ !! l).

(** ** The collector: [main] (main file) *)

(** The command-line flags that reach the core. *)
Record Flags : Type := mkFlags {
  broker : string;
  topic : string;
  username : string;
  password : string;
  qos : Z;
  count : Z;
  clients : Z;
  quiet : bool;
  clientPrefix : string;
  clientCert : string;
  clientKey : string
}.

(** The [&Client{...}] of the start loop, for the loop index [i]. *)
Definition newClient (f : Flags) (tlsConfig : option string) (i : Z)
    : Client.t :=
  {| Client.ID := i;
     Client.ClientID := clientPrefix f;
     Client.BrokerURL := broker f;
     Client.BrokerUser := username f;
     Client.BrokerPass := password f;
     Client.MsgTopic := topic f;
     Client.ReceiveCount := count f;
     Client.MsgQoS := qos f mod 256;
     Client.Quiet := quiet f;
     Client.WaitTimeout := 0;
     Client.TLSConfig := tlsConfig |}.

(** [for i := 0; i < *clients; i++ { ...; go c.Run(resCh) }]: the clients
    started, in the order of the loop. *)
Definition startClients (f : Flags) (tlsConfig : option string)
    : list Client.t :=
  (λ i, newClient f tlsConfig (Z.of_nat i)) <$> seq 0 (Z.to_nat (clients f)).

(** [for i := 0; i < *clients; i++ { results[i] = <-resCh }], with
    [remaining] turns to go: [None] when the receive blocks for ever. *)
Fixpoint collect_loop (remaining i : nat) (resCh : list RunResults.t)
    (results : list (option RunResults.t))
    : option (list (option RunResults.t) * list RunResults.t) :=
  match remaining with
  | O => Some (results, resCh)
  | S remaining' =>
      match resCh with
      | [] => None
      | r :: resCh' =>
          results' ← store_at i (Some r) results;
          collect_loop remaining' (S i) resCh' results'
      end
  end.

(** "collect the results": the slice [results] and what is left on the
    channel. *)
Definition collect (clients : Z) (resCh : list RunResults.t)
    : option (list (option RunResults.t) * list RunResults.t) :=
  collect_loop (Z.to_nat clients) 0 resCh
    (replicate (Z.to_nat clients) None).

(** A slice of results indexed by worker ID: the result at index [k] is
    that of the worker whose [ID] is [k]. *)
Definition indexed_by_worker_ID (results : list (option RunResults.t)) : Prop :=
  forall (k : nat) (r : RunResults.t),
    results !! k = Some (Some r) -> RunResults.ID r = Z.of_nat k.

(** How [main] ends. *)
Inductive MainOutcome : Type :=
  | FatalClients (given : Z)
  | FatalCount (given : Z)
  | FatalKeyMissing
  | FatalCertMissing
  | Hangs
  | MainPanics
  | Prints (results : list (option RunResults.t)) (totals : TotalResults.t).

(** [main] after [flag.Parse], on what arrives on [resCh]: [tlsConfig] is
    what [generateTLSConfig] returned, [start] and [finish] are the clock
    at [time.Now()] and at [time.Since(start)], and [resCh] is what the
    workers send, in the order of arrival.  [Hangs] is the collector
    waiting on [resCh] for ever.  Two ways in which the process ends are
    outside this function, since neither is decided by its arguments: the
    [log.Fatalf] of [generateTLSConfig] on files it cannot read, and the
    panic of a worker. *)
Definition main `{GoStats} `{GoTime} (f : Flags) (tlsConfig : option string)
    (start finish : Z) (resCh : list RunResults.t) : MainOutcome :=
  if clients f <? 1 then FatalClients (clients f)
  else if count f <? 1 then FatalCount (count f)
  else if negb (clientCert f =? EmptyString)%string && (clientKey f =? EmptyString)%string
  then FatalKeyMissing
  else if (clientCert f =? EmptyString)%string && negb (clientKey f =? EmptyString)%string
  then FatalCertMissing
  else
    match collect (clients f) resCh with
    | None => Hangs
    | Some (results, _) =>
        match calculateTotalResults results (time_Since finish start)
                (clients f) with
        | None => MainPanics
        | Some totals => Prints results totals
        end
    end.

(** ** Instances of the imported packages

    The theorems below hold for every instance of [GoStats], [GoTime] and
    [GoJSON]; these instances run the model on concrete inputs. *)

Module Instances.

Definition sum (data : list float) : float :=
  foldl PrimFloat.add Float64.zero data.

Definition least (data : list float) : float :=
  match data with
  | [] => Float64.zero
  | x :: rest => foldl (λ a y, if Float64.lt y a then y else a) x rest
  end.

Definition greatest (data : list float) : float :=
  match data with
  | [] => Float64.zero
  | x :: rest => foldl (λ a y, if Float64.gt y a then y else a) x rest
  end.

Definition mean (data : list float) : float :=
  (sum data / Float64.of_int64 (Z.of_nat (length data)))%float.

Definition sampleStandardDeviation (data : list float) : float :=
  let m := mean data in
  let squares := foldl (λ a x, a + (x - m) * (x - m))%float Float64.zero data in
  PrimFloat.sqrt (squares / Float64.of_int64 (Z.of_nat (length data) - 1))%float.

(** The textbook formulas. *)
Definition stats : GoStats :=
  {| StatsMin := least;
     StatsMax := greatest;
     StatsMean := mean;
     StatsSampleStandardDeviation := sampleStandardDeviation |}.

(** Whole seconds plus the fraction, as [Duration.Seconds] computes it. *)
Definition time : GoTime :=
  {| Seconds := λ d,
       (Float64.of_int64 (Z.quot d 1000000000)
        + Float64.of_int64 (Z.rem d 1000000000) / 1e9)%float |}.

(** A decoder of the empty object alone: ["{}"] leaves the payload as it
    is, anything else is an error. *)
Definition json : GoJSON :=
  {| Unmarshal := λ data payload,
       match data with
       | ["{"%byte; "}"%byte] => (payload, None)
       | _ => (payload, Some "invalid character"%string)
       end |}.

(** A machine that allocates up to 2^20 pointers at a time. *)
Definition runtime : GoRuntime :=
  {| allocates := λ n, (0 <=? n) && (n <=? 2 ^ 20) |}.

End Instances.

(** ** The lines of a worker's log *)

(** The progress lines of a worker that has counted [k] arrivals: one for
    each count up to [k] that is a multiple of 100, in order. *)
Definition progress_lines (c : Client.t) (k : nat) : list LogLine :=
  (λ n, LogProgress (Client.ID c) n (Client.ReceiveCount c))
    <$> filter (λ n, Z.rem n 100 = 0) (Z.of_nat <$> seq 1 k).

(** The clock of a worker in its loop, with [pre] received: nothing read
    before the first message; from then on [started] is the first reading,
    and the second reading is left for [time.Since]. *)
Definition clock_latched (clock : nat -> Z) (pre : list Message.t)
    (st : RunState) : Prop :=
  (pre = [] /\ started st = None /\ clockReads st = 0%nat)
  \/ (started st = Some (clock 0%nat) /\ clockReads st = 1%nat).

(** ** Concrete inputs *)

Module Examples.

(** The client number [id] of a run with [-count n] and the default
    flags. *)
Definition flags (n w : Z) : Flags :=
  {| broker := "tcp://localhost:1883";
     topic := "/test";
     username := EmptyString;
     password := EmptyString;
     qos := 1;
     count := n;
     clients := w;
     quiet := false;
     clientPrefix := "mqtt-benchmark";
     clientCert := EmptyString;
     clientKey := EmptyString |}.

Definition client (id n : Z) : Client.t := newClient (flags n 1) None id.

(** A message generated at [generated] and received at [received]. *)
Definition message (generated received : Z) : Message.t :=
  Message.mk (Payload.mk generated 0 0) received.

(** A clock that advances by one second at each reading. *)
Definition clock (k : nat) : Z := Z.of_nat k * 1000000000.

(** A frame that decodes, and one that does not. *)
Definition good_frame (now : Z) : Frame :=
  mkFrame ["{"%byte; "}"%byte] now.
Definition bad_frame (now : Z) : Frame := mkFrame [] now.

(** The results of a worker by their fields of interest. *)
Definition results (id successes duplicates : Z) (least greatest : float)
    : RunResults.t :=
  {| RunResults.ID := id;
     RunResults.Successes := successes;
     RunResults.RunTime := 1%float;
     RunResults.MsgTimeMin := least;
     RunResults.MsgTimeMax := greatest;
     RunResults.MsgTimeMean := least;
     RunResults.MsgTimeStd := Float64.zero;
     RunResults.MsgsPerSec := Float64.of_int64 successes;
     RunResults.Duplicates := duplicates |}.

End Examples.

(** The flags with which [main] goes on to start the clients: at least one
    client, at least one message, and a certificate and a key both given or
    both left out. *)
Definition valid_flags (f : Flags) : Prop :=
  1 <= clients f
  /\ 1 <= count f
  /\ (clientCert f = EmptyString <-> clientKey f = EmptyString).

(** ** Concrete runs *)

(** The results that a call of [Run] pushed, if it did. *)
Definition reported (o : Outcome) : RunResults.t :=
  match o with
  | Reported r _ _ => r
  | _ => RunResults.zero
  end.

Module Runs.

(** A run with [-clients 2 -count 1]. *)
Definition flags : Flags := Examples.flags 1 2.

(** What the worker [id] of that run reports on one message. *)
Definition results_of_worker (id : Z) : RunResults.t :=
  reported
    (Run (H := Instances.stats) (H0 := Instances.time) Examples.clock
       (newClient flags None id) [Examples.message 0 10]).

End Runs.

Module Heaps.

(** A heap with the results of two workers at the addresses 0 and 1, and
    the totals of an earlier run at the address 0. *)
Definition before : Store :=
  {| runResultsAt :=
       <[0%nat := Examples.results 0 100 0 10 30]>
         (<[1%nat := Examples.results 1 100 2 20 40]> ∅);
     totalResultsAt := <[0%nat := TotalResults.zero]> ∅;
     floatsAt := ∅ |}.

(** The slice [results]: pointers to the two workers' results. *)
Definition results : list (option nat) := [Some 0%nat; Some 1%nat].

(** The heap that a first call of the aggregator leaves. *)
Definition after : Store :=
  match calculateTotalResults_on (H := Instances.stats) (H0 := Instances.time)
          (H1 := Instances.runtime) results 5000000000 2 before with
  | Some (_, σ) => σ
  | None => before
  end.

End Heaps.

(** * Properties *)

(** ** Machine integers *)

Lemma Int64_wrap_id (z : Z) : Int64.InRange z -> Int64.wrap z = z.
Proof.
  unfold Int64.InRange, Int64.wrap, Int64.min, Int64.max, Int64.modulus.
  intros Hz. rewrite Z.mod_small; lia.
Qed.

(** Wrapping commutes with addition: a wrapped running sum is the wrapped
    sum. *)
Lemma Int64_wrap_add (a b : Z) : Int64.wrap (Int64.wrap a + b) = Int64.wrap (a + b).
Proof.
  unfold Int64.wrap, Int64.modulus.
  replace (((a + 2 ^ 63) mod 2 ^ 64 - 2 ^ 63) + b + 2 ^ 63)
    with ((a + 2 ^ 63) mod 2 ^ 64 + b) by lia.
  rewrite Zplus_mod_idemp_l. f_equal. f_equal. lia.
Qed.

Lemma Int64_add_small (a b : Z) : Int64.InRange (a + b) -> Int64.add a b = a + b.
Proof. apply Int64_wrap_id. Qed.

Lemma Int64_sub_diag (a : Z) : Int64.sub a a = 0.
Proof. unfold Int64.sub. rewrite Z.sub_diag. reflexivity. Qed.

(** ** Slices written index by index *)

Lemma overwrite_nil {A : Type} (i : nat) (l : list A) : overwrite i [] l = l.
Proof.
  unfold overwrite. simpl. rewrite Nat.add_0_r. apply take_drop.
Qed.

Lemma overwrite_cons {A : Type} (i : nat) (x : A) (xs l : list A) :
  (i < length l)%nat ->
  overwrite (S i) xs (<[i := x]> l) = overwrite i (x :: xs) l.
Proof.
  intros Hi. unfold overwrite.
  rewrite (take_S_r _ i x) by (apply list_lookup_insert_eq; exact Hi).
  rewrite take_insert_ge by lia.
  rewrite drop_insert_lt by lia.
  rewrite <- app_assoc. simpl.
  replace (i + S (length xs))%nat with (S i + length xs)%nat by lia.
  reflexivity.
Qed.

Lemma overwrite_all {A : Type} (xs l : list A) :
  length xs = length l -> overwrite 0 xs l = xs.
Proof.
  intros Hlen. unfold overwrite. simpl.
  rewrite drop_ge by lia. apply app_nil_r.
Qed.

Lemma store_at_Some {A : Type} (i : nat) (x : A) (l : list A) :
  (i < length l)%nat -> store_at i x l = Some (<[i := x]> l).
Proof. intros Hi. unfold store_at. rewrite decide_True; done. Qed.

(** ** The worker *)

Section WorkerFacts.

Context `{GoStats} `{GoTime}.

Variable clock : nat -> Z.
Variable c : Client.t.

Lemma fill_latencies_Some (ms : list Message.t) :
  forall (i : nat) (latencies : list float),
    (i + length ms <= length latencies)%nat ->
    fill_latencies i (Some <$> ms) latencies
    = Some (overwrite i (latencies_of ms) latencies).
Proof.
  unfold latencies_of.
  induction ms as [|m ms IH]; intros i latencies Hlen; simpl in *.
  - rewrite overwrite_nil. reflexivity.
  - rewrite store_at_Some by lia. simpl.
    rewrite IH by (rewrite length_insert; lia).
    rewrite overwrite_cons by lia. reflexivity.
Qed.

Lemma slots_length (pre : list Message.t) :
  Z.of_nat (length pre) <= Client.ReceiveCount c ->
  length (slots c pre) = Z.to_nat (Client.ReceiveCount c).
Proof.
  intros Hpre. unfold slots.
  rewrite length_app, length_fmap, length_replicate. lia.
Qed.

Lemma slots_insert (pre : list Message.t) (m : Message.t) :
  Z.of_nat (length pre) < Client.ReceiveCount c ->
  <[length pre := Some m]> (slots c pre) = slots c (pre ++ [m]).
Proof.
  intros Hpre. unfold slots.
  rewrite insert_app_r_alt by (rewrite length_fmap; lia).
  rewrite length_fmap, Nat.sub_diag, length_app. simpl.
  destruct (Z.to_nat (Client.ReceiveCount c) - length pre)%nat as [|k] eqn:Hk;
    [lia|].
  replace (Z.to_nat (Client.ReceiveCount c) - (length pre + 1))%nat with k
    by lia.
  simpl. rewrite fmap_app, <- app_assoc. reflexivity.
Qed.

Lemma slots_full (pre : list Message.t) :
  Z.of_nat (length pre) = Client.ReceiveCount c -> slots c pre = Some <$> pre.
Proof.
  intros Hpre. unfold slots.
  replace (Z.to_nat (Client.ReceiveCount c) - length pre)%nat with 0%nat
    by lia.
  apply app_nil_r.
Qed.

(** A message that arrives while a slot is free is stored in the next
    slot, and counted. *)
Lemma capture_stores (m : Message.t) (pre : list Message.t) (st : RunState) :
  Client.ReceiveCount c <= Int64.max ->
  receivedSoFar st = Z.of_nat (length pre) ->
  Z.of_nat (length pre) < Client.ReceiveCount c ->
  receivedMessages st = slots c pre ->
  capture c m st
  = Some (mkRunState (runResults st) (started st) (slots c (pre ++ [m]))
            (Z.of_nat (length (pre ++ [m]))) (clockReads st) (logged st)).
Proof.
  intros Hmax Hn Hlt Hslots. unfold capture. rewrite Hn, Hslots.
  destruct (Z.ltb_spec (Z.of_nat (length pre)) (Client.ReceiveCount c));
    [|lia].
  destruct (Z.leb_spec 0 (Z.of_nat (length pre))); [|lia].
  rewrite Nat2Z.id.
  rewrite store_at_Some by (rewrite slots_length; lia). simpl.
  rewrite slots_insert by exact Hlt.
  rewrite Int64_add_small; [|unfold Int64.InRange, Int64.min, Int64.max in *; lia].
  rewrite length_app. simpl. do 3 f_equal. lia.
Qed.

Lemma latch_started (st : RunState) : is_Some (started (latch clock st)).
Proof. unfold latch. destruct (started st) eqn:E; simpl; eauto. Qed.

Lemma latch_keeps (st : RunState) :
  runResults (latch clock st) = runResults st
  /\ receivedMessages (latch clock st) = receivedMessages st
  /\ receivedSoFar (latch clock st) = receivedSoFar st
  /\ logged (latch clock st) = logged st.
Proof. unfold latch. destruct (started st); auto. Qed.

Lemma progress_keeps (st : RunState) :
  runResults (progress c st) = runResults st
  /\ started (progress c st) = started st
  /\ receivedMessages (progress c st) = receivedMessages st
  /\ receivedSoFar (progress c st) = receivedSoFar st.
Proof.
  unfold progress. destruct (Int64.rem (receivedSoFar st) 100 =? 0); auto.
Qed.

Lemma progress_logged (st : RunState) :
  exists lines,
    logged (progress c st) = logged st ++ lines /\ Forall is_progress lines.
Proof.
  unfold progress. destruct (Int64.rem (receivedSoFar st) 100 =? 0); simpl.
  - eexists. split; [reflexivity|]. repeat constructor.
  - exists []. rewrite app_nil_r. split; [reflexivity|constructor].
Qed.

(** When every slot is filled, the results are those of the stored
    messages, with no duplicates. *)
Lemma calculate_full (stored : list Message.t) (st : RunState) (began : Z) :
  Z.of_nat (length stored) = Client.ReceiveCount c ->
  receivedMessages st = Some <$> stored ->
  receivedSoFar st = Client.ReceiveCount c ->
  started st = Some began ->
  exists st',
    calculate clock c st
    = Some (st', results_of c (runResults st) stored
                   (time_Since (clock (clockReads st)) began))
    /\ receivedMessages st' = receivedMessages st
    /\ receivedSoFar st' = receivedSoFar st
    /\ logged st' = logged st.
Proof.
  intros Hlen Hslots Hn Hst. unfold calculate.
  rewrite Hslots, fill_latencies_Some by (rewrite length_replicate; lia).
  simpl.
  rewrite overwrite_all
    by (unfold latencies_of; rewrite length_fmap, length_replicate; lia).
  rewrite Hst. simpl. rewrite Hn, Int64_sub_diag, length_fmap.
  eexists; split; [reflexivity|]. simpl. auto.
Qed.

(** The loop invariant: with [pre] stored and a slot free, the loop stops
    at the message that fills the last slot, and reports. *)
Lemma Run_loop_reports (msgs : list Message.t) :
  forall (pre : list Message.t) (st : RunState),
    Client.ReceiveCount c <= Int64.max ->
    receivedSoFar st = Z.of_nat (length pre) ->
    Z.of_nat (length pre) < Client.ReceiveCount c ->
    receivedMessages st = slots c pre ->
    (Z.to_nat (Client.ReceiveCount c) - length pre <= length msgs)%nat ->
    exists duration st',
      Run_loop clock c msgs st
      = Reported
          (results_of c (runResults st)
             (pre ++ take (Z.to_nat (Client.ReceiveCount c) - length pre) msgs)
             duration)
          st'
          (drop (Z.to_nat (Client.ReceiveCount c) - length pre) msgs)
      /\ receivedSoFar st' = Client.ReceiveCount c
      /\ receivedMessages st'
         = Some <$> (pre ++ take (Z.to_nat (Client.ReceiveCount c) - length pre) msgs)
      /\ exists lines,
           logged st' = logged st ++ lines /\ Forall is_progress lines.
Proof.
  induction msgs as [|m rest IH]; intros pre st Hmax Hn Hlt Hslots Hlen.
  - simpl in Hlen. lia.
  - simpl. unfold iteration.
    rewrite (capture_stores m pre st) by assumption. simpl.
    set (st1 := mkRunState _ _ _ _ _ _).
    destruct (progress_keeps (latch clock st1)) as (Pr & Ps & Pm & Pc).
    destruct (latch_keeps st1) as (Lr & Lm & Lc & Ll).
    destruct (progress_logged (latch clock st1)) as (lines1 & Pl & Hlines1).
    rewrite Ll in Pl. simpl in Pl.
    rewrite Pc, Lc. simpl.
    assert (Hpre : length (pre ++ [m]) = S (length pre))
      by (rewrite length_app; simpl; lia).
    destruct (Z.leb_spec (Client.ReceiveCount c)
                (Z.of_nat (length (pre ++ [m])))) as [Hdone|Hmore].
    + destruct (latch_started st1) as [began Hbegan].
      destruct (calculate_full (pre ++ [m]) (progress c (latch clock st1))
                  began) as (st' & Hcalc & Hm' & Hc' & Hl').
      * lia.
      * rewrite Pm, Lm. simpl. apply slots_full. lia.
      * rewrite Pc, Lc. simpl. lia.
      * rewrite Ps. exact Hbegan.
      * rewrite Hcalc. simpl.
        replace (Z.to_nat (Client.ReceiveCount c) - length pre)%nat
          with 1%nat by lia.
        simpl. rewrite take_0, drop_0, Pr, Lr. simpl.
        eexists _, st'. split; [reflexivity|]. split; [|split].
        -- rewrite Hc', Pc, Lc. simpl. lia.
        -- rewrite Hm', Pm, Lm. simpl. apply slots_full. lia.
        -- exists lines1. rewrite Hl'. auto.
    + destruct (IH (pre ++ [m]) (progress c (latch clock st1)))
        as (duration & st' & Hrun & Hc' & Hm' & lines & Hl' & Hlines).
      * exact Hmax.
      * rewrite Pc, Lc. reflexivity.
      * lia.
      * rewrite Pm, Lm. reflexivity.
      * simpl in Hlen. lia.
      * rewrite Hrun, Pr, Lr. simpl.
        replace (Z.to_nat (Client.ReceiveCount c) - length pre)%nat
          with (S (Z.to_nat (Client.ReceiveCount c) - length (pre ++ [m])))
          by lia.
        simpl. rewrite <- app_assoc in *. simpl in *.
        eexists _, st'. split; [reflexivity|]. do 2 (split; [assumption|]).
        exists (lines1 ++ lines). rewrite Hl', Pl, <- app_assoc.
        split; [reflexivity|]. apply Forall_app. auto.
Qed.

(** [Run] with at least [ReceiveCount] messages on its channel: it
    receives [ReceiveCount] of them, reports, and leaves the others. *)
Lemma Run_reports (msgs : list Message.t) :
  0 < Client.ReceiveCount c <= Int64.max ->
  (Z.to_nat (Client.ReceiveCount c) <= length msgs)%nat ->
  exists duration st,
    Run clock c msgs
    = Reported
        (results_of c (runResults (Run_init c))
           (take (Z.to_nat (Client.ReceiveCount c)) msgs) duration)
        st (drop (Z.to_nat (Client.ReceiveCount c)) msgs)
    /\ receivedSoFar st = Client.ReceiveCount c
    /\ receivedMessages st
       = Some <$> take (Z.to_nat (Client.ReceiveCount c)) msgs
    /\ Forall is_progress (logged st).
Proof.
  intros [Hpos Hmax] Hlen. unfold Run.
  destruct (Z.ltb_spec (Client.ReceiveCount c) 0); [lia|].
  destruct (Run_loop_reports msgs [] (Run_init c))
    as (duration & st & Hrun & Hc & Hm & lines & Hl & Hlines);
    simpl; try lia; try reflexivity.
  - unfold slots. simpl. rewrite Nat.sub_0_r. reflexivity.
  - rewrite Nat.sub_0_r in *. simpl in *. subst. eauto 10.
Qed.

End WorkerFacts.


(** ** The worker's results *)

(** C1 (what the code does): for every [ReceiveCount = N > 0] and every
    [K >= 0], a worker whose channel delivers [N + K] messages stops at the
    [N]-th.  It reports [Duplicates = 0] with [receivedSoFar = N], and the
    [K] surplus messages are still on its channel: they are neither counted
    nor logged, so [Duplicates] is [K] only for [K = 0]. *)
Theorem Run_leaves_surplus `{GoStats} `{GoTime} (clock : nat -> Z)
    (c : Client.t) (first surplus : list Message.t) :
  0 < Client.ReceiveCount c <= Int64.max ->
  Z.of_nat (length first) = Client.ReceiveCount c ->
  exists r st,
    Run clock c (first ++ surplus) = Reported r st surplus
    /\ RunResults.Duplicates r = 0
    /\ receivedSoFar st = Client.ReceiveCount c
    /\ receivedMessages st = Some <$> first
    /\ Forall is_progress (logged st).
Proof.
  intros Hn Hlen.
  destruct (Run_reports clock c (first ++ surplus) Hn)
    as (duration & st & Hrun & Hc & Hm & Hl).
  - rewrite length_app. lia.
  - replace (Z.to_nat (Client.ReceiveCount c)) with (length first) in * by lia.
    rewrite take_app_length in *. rewrite drop_app_length in Hrun.
    eexists _, st. split; [exact Hrun|]. simpl. auto.
Qed.

(** One message expected, two delivered: no duplicate is reported, and the
    second message is never received. *)
Lemma Run_leaves_surplus_witness :
  exists r st,
    Run (H := Instances.stats) (H0 := Instances.time) Examples.clock
      (Examples.client 0 1)
      [Examples.message 0 10; Examples.message 5 30]
    = Reported r st [Examples.message 5 30]
    /\ RunResults.Duplicates r = 0
    /\ receivedSoFar st = 1.
Proof.
  destruct (Run_leaves_surplus (H := Instances.stats) (H0 := Instances.time)
              Examples.clock (Examples.client 0 1)
              [Examples.message 0 10] [Examples.message 5 30])
    as (r & st & Hrun & Hdup & Hc & _).
  - vm_compute. split; [reflexivity | discriminate].
  - reflexivity.
  - exists r, st. auto.
Defined.

(** C2: for every [ReceiveCount = N > 0], a worker whose channel delivers
    exactly [N] messages terminates: it reports, with [Successes = N] and
    [Duplicates = 0], and nothing is left on its channel. *)
Theorem Run_exact_count `{GoStats} `{GoTime} (clock : nat -> Z)
    (c : Client.t) (msgs : list Message.t) :
  0 < Client.ReceiveCount c <= Int64.max ->
  Z.of_nat (length msgs) = Client.ReceiveCount c ->
  exists r st,
    Run clock c msgs = Reported r st []
    /\ RunResults.Successes r = Client.ReceiveCount c
    /\ RunResults.Duplicates r = 0.
Proof.
  intros Hn Hlen.
  destruct (Run_reports clock c msgs Hn) as (duration & st & Hrun & _);
    [lia|].
  rewrite drop_ge in Hrun by lia. rewrite take_ge in Hrun by lia.
  eexists _, st. split; [exact Hrun|]. simpl. split; [lia|reflexivity].
Qed.

(** Three messages expected and delivered. *)
Lemma Run_exact_count_witness :
  exists r st,
    Run (H := Instances.stats) (H0 := Instances.time) Examples.clock
      (Examples.client 0 3)
      [Examples.message 0 10; Examples.message 5 25; Examples.message 5 35]
    = Reported r st []
    /\ RunResults.Successes r = 3
    /\ RunResults.Duplicates r = 0.
Proof.
  apply (Run_exact_count (H := Instances.stats) (H0 := Instances.time)
           Examples.clock (Examples.client 0 3)).
  - vm_compute. split; [reflexivity | discriminate].
  - reflexivity.
Defined.

(** C5: the results of a worker have [MsgTimeStd] equal to the sample
    standard deviation of the latency sample set (the latencies of the
    [ReceiveCount] stored messages) when [ReceiveCount > 1], and equal to
    the float 0 when [ReceiveCount = 1]. *)
Theorem Run_MsgTimeStd `{GoStats} `{GoTime} (clock : nat -> Z)
    (c : Client.t) (msgs : list Message.t) :
  0 < Client.ReceiveCount c <= Int64.max ->
  (Z.to_nat (Client.ReceiveCount c) <= length msgs)%nat ->
  let stored := take (Z.to_nat (Client.ReceiveCount c)) msgs in
  exists r st rest,
    Run clock c msgs = Reported r st rest
    /\ receivedMessages st = Some <$> stored
    /\ (1 < Client.ReceiveCount c ->
        RunResults.MsgTimeStd r
        = StatsSampleStandardDeviation (latencies_of stored))
    /\ (Client.ReceiveCount c = 1 -> RunResults.MsgTimeStd r = 0%float).
Proof.
  intros Hn Hlen stored.
  destruct (Run_reports clock c msgs Hn Hlen)
    as (duration & st & Hrun & Hc & Hm & _).
  eexists _, st, _. split; [exact Hrun|]. split; [exact Hm|].
  simpl. split.
  - intros Hgt. destruct (Z.ltb_spec 1 (Client.ReceiveCount c)); [|lia].
    reflexivity.
  - intros ->. reflexivity.
Qed.

(** Latencies of 10, 20 and 30 ns: a deviation of 10 ns. *)
Lemma Run_MsgTimeStd_witness :
  exists r st rest,
    Run (H := Instances.stats) (H0 := Instances.time) Examples.clock
      (Examples.client 0 3)
      [Examples.message 0 10; Examples.message 5 25; Examples.message 5 35]
    = Reported r st rest
    /\ RunResults.MsgTimeStd r = 10%float.
Proof.
  destruct (Run_MsgTimeStd (H := Instances.stats) (H0 := Instances.time)
              Examples.clock (Examples.client 0 3)
              [Examples.message 0 10; Examples.message 5 25;
               Examples.message 5 35])
    as (r & st & rest & Hrun & _ & Hstd & _).
  - vm_compute. split; [reflexivity | discriminate].
  - vm_compute. lia.
  - exists r, st, rest. split; [exact Hrun|].
    rewrite Hstd by reflexivity. vm_compute. reflexivity.
Defined.

(** ** The subscriber callback *)

Section SubscriberFacts.

Context `{GoJSON}.

Variable c : Client.t.

Lemma receiveMessages_app (before after : list Frame) :
  (receiveMessages c (before ++ after)).1
  = (receiveMessages c before).1 ++ (receiveMessages c after).1.
Proof.
  induction before as [|msg before IH]; simpl; [reflexivity|].
  destruct (receiveMessages c (before ++ after)) as [received lines].
  destruct (receiveMessages c before) as [received' lines'].
  simpl in IH. subst received.
  destruct (onMessage c msg); reflexivity.
Qed.

(** A frame that does not decode is logged, and nothing is sent. *)
Lemma onMessage_error (msg : Frame) :
  is_Some (Unmarshal (frame_payload msg) Payload.zero).2 ->
  exists err, onMessage c msg = Dropped (LogUnmarshalError (Client.ID c) err).
Proof.
  intros [err Herr]. unfold onMessage.
  destruct (Unmarshal (frame_payload msg) Payload.zero) as [payload e].
  simpl in Herr. subst e. eauto.
Qed.

End SubscriberFacts.

(** C8: an inbound frame whose payload fails to decode is logged and
    dropped.  It is not sent on the worker's channel, so the worker ends as
    it does without the frame: the same [receivedSoFar], the same slot
    array, the same results. *)
Theorem malformed_frame_dropped `{GoStats} `{GoTime} `{GoJSON}
    (clock : nat -> Z) (c : Client.t) (before after : list Frame)
    (bad : Frame) :
  is_Some (Unmarshal (frame_payload bad) Payload.zero).2 ->
  (exists err, onMessage c bad = Dropped (LogUnmarshalError (Client.ID c) err))
  /\ (receiveMessages c (before ++ bad :: after)).1
     = (receiveMessages c (before ++ after)).1
  /\ worker clock c (before ++ bad :: after) = worker clock c (before ++ after).
Proof.
  intros Hbad.
  destruct (onMessage_error c bad Hbad) as [err Herr].
  assert (Hsame : (receiveMessages c (before ++ bad :: after)).1
                  = (receiveMessages c (before ++ after)).1).
  { rewrite !receiveMessages_app. f_equal. simpl.
    destruct (receiveMessages c after) as [received lines].
    rewrite Herr. reflexivity. }
  split; [eauto|]. split; [exact Hsame|].
  unfold worker. rewrite Hsame. reflexivity.
Qed.

(** Two frames that decode around one that does not: the worker, which
    expects two messages, stores the two and reports. *)
Lemma malformed_frame_dropped_witness :
  exists r st,
    worker (H := Instances.stats) (H0 := Instances.time) (H1 := Instances.json)
      Examples.clock (Examples.client 0 2)
      [Examples.good_frame 5; Examples.bad_frame 6; Examples.good_frame 7]
    = Reported r st []
    /\ receivedSoFar st = 2
    /\ receivedMessages st
       = [Some (Message.mk Payload.zero 5); Some (Message.mk Payload.zero 7)].
Proof.
  destruct (malformed_frame_dropped (H := Instances.stats)
              (H0 := Instances.time) (H1 := Instances.json)
              Examples.clock (Examples.client 0 2)
              [Examples.good_frame 5] [Examples.good_frame 7]
              (Examples.bad_frame 6))
    as (_ & _ & Hworker).
  - vm_compute. eauto.
  - simpl app in Hworker. rewrite Hworker.
    eexists _, _. split; [vm_compute; reflexivity|]. split; reflexivity.
Defined.

(** ** The aggregator *)

Lemma foldl_Int64_add (zs : list Z) :
  forall a : Z, foldl Int64.add (Int64.wrap a) zs = Int64.wrap (a + total zs).
Proof.
  induction zs as [|z zs IH]; intros a; simpl.
  - rewrite Z.add_0_r. reflexivity.
  - unfold Int64.add at 2. rewrite Int64_wrap_add, IH. f_equal. lia.
Qed.

Lemma foldl_Int64_add_0 (zs : list Z) :
  foldl Int64.add 0 zs = Int64.wrap (total zs).
Proof. apply (foldl_Int64_add zs 0). Qed.

Section AggregatorFacts.

Context `{GoStats} `{GoTime}.

(** The loop writes the four slices index by index and folds [totals]. *)
Lemma aggregate_loop_Some (rs : list RunResults.t) :
  forall (i : nat) (s : AggState),
    (i + length rs <= length (msgTimeMeans s))%nat ->
    (i + length rs <= length (msgsPerSecs s))%nat ->
    (i + length rs <= length (runTimes s))%nat ->
    (i + length rs <= length (bws s))%nat ->
    aggregate_loop i (Some <$> rs) s
    = Some (mkAggState
              (foldl accumulate_totals (totals s) rs)
              (overwrite i (RunResults.MsgTimeMean <$> rs) (msgTimeMeans s))
              (overwrite i (RunResults.MsgsPerSec <$> rs) (msgsPerSecs s))
              (overwrite i (RunResults.RunTime <$> rs) (runTimes s))
              (overwrite i (RunResults.MsgsPerSec <$> rs) (bws s))).
Proof.
  induction rs as [|r rs IH]; intros i s Hm Hp Ht Hb; simpl in *.
  - rewrite !overwrite_nil. destruct s; reflexivity.
  - unfold accumulate. rewrite !store_at_Some by lia. simpl.
    rewrite IH by (simpl; rewrite length_insert; lia). simpl.
    rewrite !overwrite_cons by lia. reflexivity.
Qed.

(** The closed form of [calculateTotalResults] on non-nil pointers. *)
Lemma calculateTotalResults_Some (first : RunResults.t)
    (rest : list RunResults.t) (totalTime sampleSize : Z) :
  let rs := first :: rest in
  calculateTotalResults (Some <$> rs) totalTime sampleSize
  = Some (final_totals
            (mkAggState
               (foldl accumulate_totals (initial_totals first totalTime) rs)
               (RunResults.MsgTimeMean <$> rs)
               (RunResults.MsgsPerSec <$> rs)
               (RunResults.RunTime <$> rs)
               (RunResults.MsgsPerSec <$> rs))
            sampleSize).
Proof.
  intros rs. unfold calculateTotalResults.
  change (mjoin ((Some <$> rs) !! 0%nat)) with (Some first).
  cbn [mbind option_bind].
  rewrite aggregate_loop_Some
    by (cbn [msgTimeMeans msgsPerSecs runTimes bws];
        rewrite length_replicate, length_fmap; lia).
  cbn [mbind option_bind totals msgTimeMeans msgsPerSecs runTimes bws].
  rewrite !overwrite_all
    by (rewrite length_replicate, !length_fmap; reflexivity).
  reflexivity.
Qed.

Lemma accumulate_totals_Ratio (rs : list RunResults.t) :
  forall t, TotalResults.Ratio (foldl accumulate_totals t rs)
            = TotalResults.Ratio t.
Proof. induction rs as [|r rs IH]; intros t; simpl; [|rewrite IH]; done. Qed.

Lemma accumulate_totals_MsgTimeMeanStd (rs : list RunResults.t) :
  forall t, TotalResults.MsgTimeMeanStd (foldl accumulate_totals t rs)
            = TotalResults.MsgTimeMeanStd t.
Proof. induction rs as [|r rs IH]; intros t; simpl; [|rewrite IH]; done. Qed.

Lemma accumulate_totals_Successes (rs : list RunResults.t) :
  forall t, TotalResults.Successes (foldl accumulate_totals t rs)
            = foldl Int64.add (TotalResults.Successes t)
                (RunResults.Successes <$> rs).
Proof. induction rs as [|r rs IH]; intros t; simpl; [|rewrite IH]; done. Qed.

Lemma accumulate_totals_Duplicates (rs : list RunResults.t) :
  forall t, TotalResults.Duplicates (foldl accumulate_totals t rs)
            = foldl Int64.add (TotalResults.Duplicates t)
                (RunResults.Duplicates <$> rs).
Proof. induction rs as [|r rs IH]; intros t; simpl; [|rewrite IH]; done. Qed.

(** [MsgTimeMin] starts from the first worker's; [MsgTimeMax] starts from
    the zero of [new(TotalResults)]. *)
Lemma accumulate_totals_MsgTimeMin (rs : list RunResults.t) :
  forall t, TotalResults.MsgTimeMin (foldl accumulate_totals t rs)
            = foldl (λ a x, if Float64.lt x a then x else a)
                (TotalResults.MsgTimeMin t) (RunResults.MsgTimeMin <$> rs).
Proof. induction rs as [|r rs IH]; intros t; simpl; [|rewrite IH]; done. Qed.

Lemma accumulate_totals_MsgTimeMax (rs : list RunResults.t) :
  forall t, TotalResults.MsgTimeMax (foldl accumulate_totals t rs)
            = foldl (λ a x, if Float64.gt x a then x else a)
                (TotalResults.MsgTimeMax t) (RunResults.MsgTimeMax <$> rs).
Proof. induction rs as [|r rs IH]; intros t; simpl; [|rewrite IH]; done. Qed.

End AggregatorFacts.

(** C3 (what the code does): [MsgTimeMin] is the least of the workers'
    [MsgTimeMin], negative or not, but [MsgTimeMax] is compared against the
    0 it starts from: for two workers whose latencies are all negative
    (least -7 and -9, greatest -5 and -6) the aggregate has
    [MsgTimeMin = -9] and [MsgTimeMax = 0], where the greatest of the
    workers' [MsgTimeMax] is -5. *)
Theorem calculateTotalResults_negative_MsgTimeMax `{GoStats} `{GoTime}
    (totalTime sampleSize : Z) :
  exists tot,
    calculateTotalResults
      [Some (Examples.results 0 100 0 (-7) (-5));
       Some (Examples.results 1 100 0 (-9) (-6))] totalTime sampleSize
    = Some tot
    /\ TotalResults.MsgTimeMin tot = (-9)%float
    /\ TotalResults.MsgTimeMax tot = 0%float.
Proof.
  change [Some (Examples.results 0 100 0 (-7) (-5));
          Some (Examples.results 1 100 0 (-9) (-6))]
    with (Some <$> [Examples.results 0 100 0 (-7) (-5);
                    Examples.results 1 100 0 (-9) (-6)]).
  rewrite calculateTotalResults_Some.
  eexists. split; [reflexivity|]. split; vm_compute; reflexivity.
Qed.

(** In general: the least of the workers' [MsgTimeMin] by [<] from the
    first worker's, and the greatest of the workers' [MsgTimeMax] by [>]
    from 0. *)
Lemma calculateTotalResults_MsgTimeMin_MsgTimeMax `{GoStats} `{GoTime}
    (first : RunResults.t) (rest : list RunResults.t)
    (totalTime sampleSize : Z) :
  exists tot,
    calculateTotalResults (Some <$> first :: rest) totalTime sampleSize
    = Some tot
    /\ TotalResults.MsgTimeMin tot
       = foldl (λ a x, if Float64.lt x a then x else a)
           (RunResults.MsgTimeMin first)
           (RunResults.MsgTimeMin <$> first :: rest)
    /\ TotalResults.MsgTimeMax tot
       = foldl (λ a x, if Float64.gt x a then x else a)
           Float64.zero
           (RunResults.MsgTimeMax <$> first :: rest).
Proof.
  rewrite calculateTotalResults_Some. eexists. split; [reflexivity|].
  cbn [final_totals totals TotalResults.MsgTimeMin TotalResults.MsgTimeMax].
  rewrite accumulate_totals_MsgTimeMin, accumulate_totals_MsgTimeMax.
  split; reflexivity.
Qed.

(** A worker whose only message was generated 5 ns after it was received
    (the publisher's clock is ahead): its greatest latency is -5, and the
    aggregate of this one worker has [MsgTimeMax = 0]. *)
Example skewed_clock_MsgTimeMax :
  exists r st tot,
    Run (H := Instances.stats) (H0 := Instances.time) Examples.clock
      (Examples.client 0 1) [Examples.message 5 0]
    = Reported r st []
    /\ RunResults.MsgTimeMax r = (-5)%float
    /\ calculateTotalResults (H := Instances.stats) (H0 := Instances.time)
         [Some r] 1000000000 1 = Some tot
    /\ TotalResults.MsgTimeMax tot = 0%float.
Proof.
  eexists _, _, _. split; [vm_compute; reflexivity|].
  split; [reflexivity|]. split; [vm_compute; reflexivity|]. reflexivity.
Qed.

(** C4: for every non-empty list of worker results, the aggregate has
    [Successes] equal to the sum of the workers' [Successes] and
    [Duplicates] equal to the sum of the workers' [Duplicates], the sums
    being those of [int64]: the sum modulo 2^64, which is the sum itself
    whenever that is an [int64]. *)
Theorem calculateTotalResults_sums `{GoStats} `{GoTime}
    (rs : list RunResults.t) (totalTime sampleSize : Z) :
  rs <> [] ->
  exists tot,
    calculateTotalResults (Some <$> rs) totalTime sampleSize = Some tot
    /\ TotalResults.Successes tot
       = Int64.wrap (total (RunResults.Successes <$> rs))
    /\ TotalResults.Duplicates tot
       = Int64.wrap (total (RunResults.Duplicates <$> rs))
    /\ (Int64.InRange (total (RunResults.Successes <$> rs)) ->
        TotalResults.Successes tot = total (RunResults.Successes <$> rs))
    /\ (Int64.InRange (total (RunResults.Duplicates <$> rs)) ->
        TotalResults.Duplicates tot = total (RunResults.Duplicates <$> rs)).
Proof.
  intros Hrs. destruct rs as [|first rest]; [done|].
  rewrite calculateTotalResults_Some. eexists. split; [reflexivity|].
  cbn [final_totals totals TotalResults.Successes TotalResults.Duplicates].
  rewrite accumulate_totals_Successes, accumulate_totals_Duplicates.
  cbn [initial_totals TotalResults.Successes TotalResults.Duplicates].
  rewrite !foldl_Int64_add_0.
  split; [reflexivity|]. split; [reflexivity|].
  split; intros Hin; apply Int64_wrap_id, Hin.
Qed.

(** Three workers with [Successes] 100, 100, 100 and [Duplicates] 0, 2, 1:
    300 successes and 3 duplicates. *)
Lemma calculateTotalResults_sums_witness :
  exists tot,
    calculateTotalResults (H := Instances.stats) (H0 := Instances.time)
      [Some (Examples.results 0 100 0 10 30);
       Some (Examples.results 1 100 2 10 30);
       Some (Examples.results 2 100 1 10 30)] 5000000000 3
    = Some tot
    /\ TotalResults.Successes tot = 300
    /\ TotalResults.Duplicates tot = 3.
Proof.
  destruct (calculateTotalResults_sums (H := Instances.stats)
              (H0 := Instances.time)
              [Examples.results 0 100 0 10 30; Examples.results 1 100 2 10 30;
               Examples.results 2 100 1 10 30] 5000000000 3)
    as (tot & Htot & _ & _ & Hsucc & Hdup).
  - discriminate.
  - exists tot. split; [exact Htot|]. split.
    + apply Hsucc. vm_compute. split; discriminate.
    + apply Hdup. vm_compute. split; discriminate.
Defined.

(** C6: the aggregate has [MsgTimeMeanStd] equal to the sample standard
    deviation of the workers' [MsgTimeMean] when [sampleSize > 1], and
    equal to the float 0 when [sampleSize = 1]. *)
Theorem calculateTotalResults_MsgTimeMeanStd `{GoStats} `{GoTime}
    (rs : list RunResults.t) (totalTime sampleSize : Z) :
  rs <> [] ->
  exists tot,
    calculateTotalResults (Some <$> rs) totalTime sampleSize = Some tot
    /\ (1 < sampleSize ->
        TotalResults.MsgTimeMeanStd tot
        = StatsSampleStandardDeviation (RunResults.MsgTimeMean <$> rs))
    /\ (sampleSize = 1 -> TotalResults.MsgTimeMeanStd tot = 0%float).
Proof.
  intros Hrs. destruct rs as [|first rest]; [done|].
  rewrite calculateTotalResults_Some. eexists. split; [reflexivity|].
  cbn [final_totals totals msgTimeMeans TotalResults.MsgTimeMeanStd]. split.
  - intros Hgt. destruct (Z.ltb_spec 1 sampleSize); [reflexivity|lia].
  - intros ->. simpl. rewrite accumulate_totals_MsgTimeMeanStd. reflexivity.
Qed.

(** A single worker: no deviation. *)
Lemma calculateTotalResults_MsgTimeMeanStd_witness :
  exists tot,
    calculateTotalResults (H := Instances.stats) (H0 := Instances.time)
      [Some (Examples.results 0 100 0 10 30)] 5000000000 1
    = Some tot
    /\ TotalResults.MsgTimeMeanStd tot = 0%float.
Proof.
  destruct (calculateTotalResults_MsgTimeMeanStd (H := Instances.stats)
              (H0 := Instances.time)
              [Examples.results 0 100 0 10 30] 5000000000 1)
    as (tot & Htot & _ & Hone).
  - discriminate.
  - exists tot. split; [exact Htot | apply Hone; reflexivity].
Defined.

(** C10: for every non-empty list of worker results, every total time and
    every sample size, the aggregate has [Ratio] equal to the float 0: the
    aggregator never assigns the field. *)
Theorem calculateTotalResults_Ratio `{GoStats} `{GoTime}
    (rs : list RunResults.t) (totalTime sampleSize : Z) :
  rs <> [] ->
  exists tot,
    calculateTotalResults (Some <$> rs) totalTime sampleSize = Some tot
    /\ TotalResults.Ratio tot = 0%float.
Proof.
  intros Hrs. destruct rs as [|first rest]; [done|].
  rewrite calculateTotalResults_Some. eexists. split; [reflexivity|].
  cbn [final_totals totals TotalResults.Ratio].
  rewrite accumulate_totals_Ratio. reflexivity.
Qed.

(** Three workers. *)
Lemma calculateTotalResults_Ratio_witness :
  exists tot,
    calculateTotalResults (H := Instances.stats) (H0 := Instances.time)
      [Some (Examples.results 0 100 0 10 30);
       Some (Examples.results 1 100 2 20 40);
       Some (Examples.results 2 100 1 5 35)] 5000000000 3
    = Some tot
    /\ TotalResults.Ratio tot = 0%float.
Proof.
  apply (calculateTotalResults_Ratio (H := Instances.stats)
           (H0 := Instances.time)
           [Examples.results 0 100 0 10 30; Examples.results 1 100 2 20 40;
            Examples.results 2 100 1 5 35] 5000000000 3).
  discriminate.
Defined.

(** ** The aggregator on the heap *)

Lemma NoDup_four (a b c d : nat) :
  NoDup [a; b; c; d] ->
  a <> b /\ a <> c /\ a <> d /\ b <> c /\ b <> d /\ c <> d.
Proof.
  intros Hnd.
  apply NoDup_cons in Hnd as [Ha Hnd].
  apply NoDup_cons in Hnd as [Hb Hnd].
  apply NoDup_cons in Hnd as [Hc _].
  set_solver.
Qed.

Lemma writes_only_trans (σ1 σ2 σ3 : Store) (at_totals : nat)
    (slices : Slices) :
  writes_only σ1 σ2 at_totals slices ->
  writes_only σ2 σ3 at_totals slices ->
  writes_only σ1 σ3 at_totals slices.
Proof.
  intros (Hr1 & Ht1 & Hf1) (Hr2 & Ht2 & Hf2). split; [congruence|]. split.
  - intros l Hl. rewrite Ht2, Ht1 by exact Hl. reflexivity.
  - intros l Hl. rewrite Hf2, Hf1 by exact Hl. reflexivity.
Qed.

Lemma Exec_bind_Some {A B : Type} (m : Exec A) (k : A -> Exec B)
    (σ σ' : Store) (a : A) :
  m σ = Some (a, σ') -> Exec_bind m k σ = k a σ'.
Proof. intros Hm. unfold Exec_bind. rewrite Hm. reflexivity. Qed.

Lemma Exec_bind_None {A B : Type} (m : Exec A) (k : A -> Exec B) (σ : Store) :
  m σ = None -> Exec_bind m k σ = None.
Proof. intros Hm. unfold Exec_bind. rewrite Hm. reflexivity. Qed.

Lemma update_TotalResults_Some (p : nat)
    (assign : TotalResults.t -> TotalResults.t) (σ : Store)
    (t : TotalResults.t) :
  totalResultsAt σ !! p = Some t ->
  update_TotalResults p assign σ
  = Some (tt, mkStore (runResultsAt σ)
                (<[p := assign t]> (totalResultsAt σ)) (floatsAt σ)).
Proof. intros Ht. unfold update_TotalResults. rewrite Ht. reflexivity. Qed.

Lemma write_float_Some (p i : nat) (x : float) (σ : Store)
    (data data' : list float) :
  floatsAt σ !! p = Some data ->
  store_at i x data = Some data' ->
  write_float p i x σ
  = Some (tt, mkStore (runResultsAt σ) (totalResultsAt σ)
                (<[p := data']> (floatsAt σ))).
Proof.
  intros Hp Hd. unfold write_float. rewrite Hp, Hd. reflexivity.
Qed.

Lemma write_float_None (p i : nat) (x : float) (σ : Store)
    (data : list float) :
  floatsAt σ !! p = Some data ->
  store_at i x data = None ->
  write_float p i x σ = None.
Proof.
  intros Hp Hd. unfold write_float. rewrite Hp, Hd. reflexivity.
Qed.

Lemma read_floats_Some (p : nat) (σ : Store) (data : list float) :
  floatsAt σ !! p = Some data -> read_floats p σ = Some (data, σ).
Proof. intros Hp. unfold read_floats. rewrite Hp. reflexivity. Qed.

(** Lookups in a heap after writes at other addresses. *)
Ltac heap_lookup :=
  cbn [runResultsAt totalResultsAt floatsAt];
  repeat first
    [ rewrite lookup_insert_eq
    | rewrite lookup_insert_ne by congruence ];
  first [ eassumption | reflexivity ].

Lemma make_floats_Some `{GoRuntime} (n : nat) (σ : Store) :
  allocates (Z.of_nat n) = true ->
  make_floats n σ
  = Some (fresh (dom (floatsAt σ)),
          mkStore (runResultsAt σ) (totalResultsAt σ)
            (<[fresh (dom (floatsAt σ)) := replicate n Float64.zero]>
               (floatsAt σ))).
Proof. intros Halloc. unfold make_floats. rewrite Halloc. reflexivity. Qed.

Section AggregatorOnHeapFacts.

Context `{GoStats} `{GoTime} `{GoRuntime}.

(** One turn of the loop on the heap does what [accumulate] does to the
    loop's variables, and writes nothing else. *)
Lemma accumulate_on_refines (at_totals : nat) (slices : Slices) (i : nat)
    (res : RunResults.t) (σ : Store) (s : AggState) :
  holds σ at_totals slices s ->
  match accumulate i res s with
  | None => accumulate_on at_totals slices i res σ = None
  | Some s' =>
      exists σ',
        accumulate_on at_totals slices i res σ = Some (tt, σ')
        /\ holds σ' at_totals slices s'
        /\ writes_only σ σ' at_totals slices
  end.
Proof.
  intros (Ht & Hm & Hp & Hr & Hb & Hnd).
  destruct (NoDup_four _ _ _ _ Hnd) as (Hmp & Hmr & Hmb & Hpr & Hpb & Hrb).
  unfold accumulate, accumulate_on.
  erewrite Exec_bind_Some by (apply update_TotalResults_Some; exact Ht).
  destruct (store_at i (RunResults.MsgTimeMean res) (msgTimeMeans s))
    as [means|] eqn:Emeans; cbn [mbind option_bind];
    [|erewrite Exec_bind_None;
      [reflexivity | eapply write_float_None; [heap_lookup | exact Emeans]]].
  erewrite Exec_bind_Some
    by (eapply write_float_Some; [heap_lookup | exact Emeans]).
  destruct (store_at i (RunResults.MsgsPerSec res) (msgsPerSecs s))
    as [perSecs|] eqn:EperSecs; cbn [mbind option_bind];
    [|erewrite Exec_bind_None;
      [reflexivity | eapply write_float_None; [heap_lookup | exact EperSecs]]].
  erewrite Exec_bind_Some
    by (eapply write_float_Some; [heap_lookup | exact EperSecs]).
  destruct (store_at i (RunResults.RunTime res) (runTimes s))
    as [times|] eqn:Etimes; cbn [mbind option_bind];
    [|erewrite Exec_bind_None;
      [reflexivity | eapply write_float_None; [heap_lookup | exact Etimes]]].
  erewrite Exec_bind_Some
    by (eapply write_float_Some; [heap_lookup | exact Etimes]).
  destruct (store_at i (RunResults.MsgsPerSec res) (bws s))
    as [bws'|] eqn:Ebws; cbn [mbind option_bind];
    [|eapply write_float_None; [heap_lookup | exact Ebws]].
  eexists. split.
  - eapply write_float_Some; [heap_lookup | exact Ebws].
  - split.
    + unfold holds. cbn [totals msgTimeMeans msgsPerSecs runTimes bws].
      do 5 (split; [heap_lookup|]). exact Hnd.
    + unfold writes_only. cbn [runResultsAt totalResultsAt floatsAt].
      split; [reflexivity|]. split.
      * intros l Hl. rewrite lookup_insert_ne by congruence. reflexivity.
      * intros l Hl. rewrite !lookup_insert_ne; [reflexivity|..];
          intros Heq; apply Hl; rewrite <- Heq; set_solver.
Qed.

(** The loop on the heap does what [aggregate_loop] does on the structs
    that the pointers lead to. *)
Lemma aggregate_loop_on_refines (at_totals : nat) (slices : Slices)
    (results : list (option nat)) :
  forall (i : nat) (σ : Store) (s : AggState),
    holds σ at_totals slices s ->
    match aggregate_loop i (deref (runResultsAt σ) <$> results) s with
    | None => aggregate_loop_on at_totals slices i results σ = None
    | Some s' =>
        exists σ',
          aggregate_loop_on at_totals slices i results σ = Some (tt, σ')
          /\ holds σ' at_totals slices s'
          /\ writes_only σ σ' at_totals slices
    end.
Proof.
  induction results as [|p rest IH]; intros i σ s Hholds.
  - simpl. exists σ. split; [reflexivity|]. split; [exact Hholds|].
    unfold writes_only. auto.
  - cbn [fmap list_fmap aggregate_loop aggregate_loop_on].
    destruct (deref (runResultsAt σ) p) as [res|] eqn:Hres.
    + erewrite Exec_bind_Some
        by (unfold read_RunResults; rewrite Hres; reflexivity).
      pose proof (accumulate_on_refines at_totals slices i res σ s Hholds)
        as Hacc.
      destruct (accumulate i res s) as [s1|]; cbn [mbind option_bind].
      * destruct Hacc as (σ1 & Hrun & Hholds1 & Hwrites1).
        erewrite Exec_bind_Some by exact Hrun.
        specialize (IH (S i) σ1 s1 Hholds1).
        destruct Hwrites1 as (Hruns & Hwt & Hwf).
        rewrite Hruns in IH.
        destruct (aggregate_loop (S i) (deref (runResultsAt σ) <$> rest) s1)
          as [s'|]; [|exact IH].
        destruct IH as (σ' & Hloop & Hholds' & Hwrites').
        exists σ'. split; [exact Hloop|]. split; [exact Hholds'|].
        eapply writes_only_trans; [|exact Hwrites'].
        unfold writes_only. auto.
      * erewrite Exec_bind_None by exact Hacc. reflexivity.
    + erewrite Exec_bind_None
        by (unfold read_RunResults; rewrite Hres; reflexivity).
      reflexivity.
Qed.

(** What the assignments after the loop leave in [totals]. *)
Lemma final_totals_assignments (s : AggState) (sampleSize : Z) :
  final_totals s sampleSize
  = (if 1 <? sampleSize
     then set_MsgTimeMeanStd (StatsSampleStandardDeviation (msgTimeMeans s))
     else id)
      (set_MsgTimeMeanAvg (StatsMean (msgTimeMeans s))
         (set_AvgRunTime (StatsMean (runTimes s))
            (set_AvgMsgsPerSec (StatsMean (msgsPerSecs s)) (totals s)))).
Proof. unfold final_totals. destruct (1 <? sampleSize); reflexivity. Qed.

(** The call on the heap returns a new struct that holds what
    [calculateTotalResults] computes from the structs the pointers lead
    to, panics when it panics, and leaves the heap it found as it was. *)
Lemma calculateTotalResults_on_refines (results : list (option nat))
    (totalTime sampleSize : Z) (σ : Store) :
  allocates (Z.of_nat (length results)) = true ->
  match calculateTotalResults (deref (runResultsAt σ) <$> results)
          totalTime sampleSize with
  | None => calculateTotalResults_on results totalTime sampleSize σ = None
  | Some tot =>
      exists p σ',
        calculateTotalResults_on results totalTime sampleSize σ = Some (p, σ')
        /\ totalResultsAt σ' !! p = Some tot
        /\ totalResultsAt σ !! p = None
        /\ untouched σ σ'
  end.
Proof.
  intros Halloc.
  unfold calculateTotalResults, calculateTotalResults_on.
  rewrite length_fmap.
  erewrite Exec_bind_Some by reflexivity.
  erewrite Exec_bind_Some by (apply update_TotalResults_Some; heap_lookup).
  do 4 (erewrite Exec_bind_Some by (apply make_floats_Some; exact Halloc)).
  cbn [runResultsAt totalResultsAt floatsAt].
  set (zeros := replicate (length results) Float64.zero).
  set (pt := fresh (dom (totalResultsAt σ))).
  assert (Hpt : totalResultsAt σ !! pt = None)
    by (apply not_elem_of_dom, is_fresh).
  set (F0 := floatsAt σ).
  set (pm := fresh (dom F0)).
  set (F1 := <[pm := zeros]> F0).
  set (pp := fresh (dom F1)).
  set (F2 := <[pp := zeros]> F1).
  set (pr := fresh (dom F2)).
  set (F3 := <[pr := zeros]> F2).
  set (pb := fresh (dom F3)).
  assert (Hpm : pm ∉ dom F0) by apply is_fresh.
  assert (Hpp : pp ∉ dom F1) by apply is_fresh.
  assert (Hpr : pr ∉ dom F2) by apply is_fresh.
  assert (Hpb : pb ∉ dom F3) by apply is_fresh.
  unfold F3 in Hpb. rewrite dom_insert_L in Hpb.
  unfold F2 in Hpr, Hpb. rewrite dom_insert_L in Hpr, Hpb.
  unfold F1 in Hpp, Hpr, Hpb. rewrite dom_insert_L in Hpp, Hpr, Hpb.
  assert (Hnd : NoDup [pm; pp; pr; pb])
    by (repeat (apply NoDup_cons; split;
                  [clear - Hpp Hpr Hpb; set_unfold; intuition congruence|]);
        apply NoDup_nil_2).
  destruct (NoDup_four _ _ _ _ Hnd) as (Hmp & Hmr & Hmb & Hpr' & Hpb' & Hrb).
  replace (mjoin ((deref (runResultsAt σ) <$> results) !! 0%nat))
    with (deref (runResultsAt σ) (mjoin (results !! 0%nat)))
    by (destruct results as [|[l|] rest]; reflexivity).
  destruct (deref (runResultsAt σ) (mjoin (results !! 0%nat)))
    as [first|] eqn:Hfirst; cbn [mbind option_bind];
    [|erewrite Exec_bind_None;
      [reflexivity
      |unfold read_RunResults; cbn [runResultsAt]; rewrite Hfirst;
       reflexivity]].
  erewrite Exec_bind_Some
    by (unfold read_RunResults; cbn [runResultsAt]; rewrite Hfirst;
        reflexivity).
  erewrite Exec_bind_Some by (apply update_TotalResults_Some; heap_lookup).
  cbn [runResultsAt totalResultsAt floatsAt].
  set (σ3 := mkStore _ _ _).
  assert (Hholds : holds σ3 pt (mkSlices pm pp pr pb)
                     (mkAggState (initial_totals first totalTime)
                        zeros zeros zeros zeros)).
  { unfold holds, σ3.
    cbn [totals msgTimeMeans msgsPerSecs runTimes bws at_msgTimeMeans
         at_msgsPerSecs at_runTimes at_bws].
    split; [heap_lookup|].
    unfold F3, F2, F1. do 4 (split; [heap_lookup|]). exact Hnd. }
  pose proof (aggregate_loop_on_refines pt (mkSlices pm pp pr pb) results
                0 σ3 _ Hholds) as Hloop.
  change (runResultsAt σ3) with (runResultsAt σ) in Hloop.
  destruct (aggregate_loop 0 (deref (runResultsAt σ) <$> results) _)
    as [s'|]; cbn [mbind option_bind];
    [|erewrite Exec_bind_None by exact Hloop; reflexivity].
  destruct Hloop as (σ4 & Hrun & (Ht & Hm & Hp & Hr & Hb & _)
                     & (Hruns & Hwt & Hwf)).
  cbn [at_msgTimeMeans at_msgsPerSecs at_runTimes at_bws] in *.
  erewrite Exec_bind_Some by exact Hrun.
  erewrite Exec_bind_Some by (apply read_floats_Some; exact Hp).
  erewrite Exec_bind_Some by (apply update_TotalResults_Some; exact Ht).
  erewrite Exec_bind_Some by (apply read_floats_Some; heap_lookup).
  erewrite Exec_bind_Some by (apply update_TotalResults_Some; heap_lookup).
  erewrite Exec_bind_Some by (apply read_floats_Some; heap_lookup).
  erewrite Exec_bind_Some by (apply update_TotalResults_Some; heap_lookup).
  cbn [runResultsAt totalResultsAt floatsAt].
  rewrite final_totals_assignments.
  assert (Hkept : forall T : gmap nat TotalResults.t,
            (forall l, l <> pt -> T !! l = totalResultsAt σ4 !! l) ->
            totalResultsAt σ ⊆ T).
  { intros T HT. apply map_subseteq_spec. intros l t Hl.
    assert (Hne : l <> pt) by (intros ->; congruence).
    rewrite HT, Hwt by exact Hne. unfold σ3. cbn [totalResultsAt].
    rewrite !lookup_insert_ne by congruence. exact Hl. }
  assert (Hfloats : floatsAt σ ⊆ floatsAt σ4).
  { apply map_subseteq_spec. intros l data Hl.
    assert (Hin : l ∈ dom F0) by (apply elem_of_dom; eauto).
    assert (Hother : l <> pm /\ l <> pp /\ l <> pr /\ l <> pb)
      by (clear - Hin Hpm Hpp Hpr Hpb; set_unfold; intuition congruence).
    destruct Hother as (Hlm & Hlp & Hlr & Hlb).
    rewrite Hwf
      by (cbn [at_msgTimeMeans at_msgsPerSecs at_runTimes at_bws];
          intros Hmem; repeat (apply elem_of_cons in Hmem as [Hmem|Hmem];
                               [congruence|]);
          apply elem_of_nil in Hmem; exact Hmem).
    unfold σ3, F3, F2, F1. cbn [floatsAt].
    rewrite !lookup_insert_ne by congruence. exact Hl. }
  destruct (1 <? sampleSize).
  - erewrite Exec_bind_Some
      by (erewrite Exec_bind_Some by (apply read_floats_Some; heap_lookup);
          apply update_TotalResults_Some; heap_lookup).
    eexists _, _. split; [reflexivity|].
    cbn [runResultsAt totalResultsAt floatsAt].
    split; [heap_lookup|]. split; [exact Hpt|].
    unfold untouched. cbn [runResultsAt totalResultsAt floatsAt].
    split; [exact Hruns|]. split; [|exact Hfloats].
    apply Hkept. intros l Hl. rewrite !lookup_insert_ne by congruence.
    reflexivity.
  - erewrite Exec_bind_Some by reflexivity.
    eexists _, _. split; [reflexivity|].
    cbn [runResultsAt totalResultsAt floatsAt].
    split; [heap_lookup|]. split; [exact Hpt|].
    unfold untouched. cbn [runResultsAt totalResultsAt floatsAt].
    split; [exact Hruns|]. split; [|exact Hfloats].
    apply Hkept. intros l Hl. rewrite !lookup_insert_ne by congruence.
    reflexivity.
Qed.

(** When the slices cannot be allocated the call panics, whatever the
    results are. *)
Lemma calculateTotalResults_on_no_memory (results : list (option nat))
    (totalTime sampleSize : Z) (σ : Store) :
  allocates (Z.of_nat (length results)) = false ->
  calculateTotalResults_on results totalTime sampleSize σ = None.
Proof.
  intros Halloc. unfold calculateTotalResults_on.
  erewrite Exec_bind_Some by reflexivity.
  erewrite Exec_bind_Some by (apply update_TotalResults_Some; heap_lookup).
  apply Exec_bind_None. unfold make_floats. rewrite Halloc. reflexivity.
Qed.

End AggregatorOnHeapFacts.

(** C7: the aggregator is a pure, deterministic function of its three
    inputs.  Run on the heap, where it reads [results] through pointers
    and writes [totals] and its slices, it returns a struct that depends
    only on the structs the pointers of [results] lead to, on the total
    time and on the sample size: two invocations on the same input, in
    whatever state the rest of the heap is (the second may run on the heap
    the first one left), both panic or return aggregates equal in every
    field; on a machine that cannot allocate the four slices both panic.
    Each returns a new struct and leaves every struct and array it found
    on the heap as it was. *)
Theorem calculateTotalResults_deterministic `{GoStats} `{GoTime} `{GoRuntime}
    (σ σ' : Store) (results : list (option nat)) (totalTime sampleSize : Z) :
  (forall l, Some l ∈ results -> runResultsAt σ !! l = runResultsAt σ' !! l) ->
  match calculateTotalResults_on results totalTime sampleSize σ,
        calculateTotalResults_on results totalTime sampleSize σ' with
  | Some (p, σ1), Some (p', σ1') =>
      (exists tot,
         totalResultsAt σ1 !! p = Some tot
         /\ totalResultsAt σ1' !! p' = Some tot)
      /\ totalResultsAt σ !! p = None
      /\ totalResultsAt σ' !! p' = None
      /\ untouched σ σ1
      /\ untouched σ' σ1'
  | None, None => True
  | _, _ => False
  end.
Proof.
  intros Hsame.
  destruct (allocates (Z.of_nat (length results))) eqn:Halloc;
    [|rewrite !calculateTotalResults_on_no_memory by exact Halloc; exact I].
  pose proof (calculateTotalResults_on_refines results totalTime sampleSize σ
                Halloc) as Hσ.
  pose proof (calculateTotalResults_on_refines results totalTime sampleSize σ'
                Halloc) as Hσ'.
  assert (Hinputs : deref (runResultsAt σ) <$> results
                    = deref (runResultsAt σ') <$> results).
  { apply list_fmap_ext. intros i [l|] Hl; [|reflexivity].
    simpl. apply Hsame. eapply list_elem_of_lookup_2, Hl. }
  rewrite <- Hinputs in Hσ'.
  destruct (calculateTotalResults (deref (runResultsAt σ) <$> results)
              totalTime sampleSize) as [tot|].
  - destruct Hσ as (p & σ1 & -> & Htot & Hfresh & Hkept).
    destruct Hσ' as (p' & σ1' & -> & Htot' & Hfresh' & Hkept').
    split; [eauto|]. auto.
  - rewrite Hσ, Hσ'. exact I.
Qed.

(** Two invocations in a row: the second, on the heap the first one left,
    returns another struct with the same aggregate, and the first struct
    is still there. *)
Lemma calculateTotalResults_deterministic_witness :
  exists p1 p2 σ2 tot,
    calculateTotalResults_on (H := Instances.stats) (H0 := Instances.time)
      (H1 := Instances.runtime) Heaps.results 5000000000 2 Heaps.before
    = Some (p1, Heaps.after)
    /\ calculateTotalResults_on (H := Instances.stats) (H0 := Instances.time)
         (H1 := Instances.runtime) Heaps.results 5000000000 2 Heaps.after
       = Some (p2, σ2)
    /\ p1 <> p2
    /\ totalResultsAt σ2 !! p1 = Some tot
    /\ totalResultsAt σ2 !! p2 = Some tot
    /\ TotalResults.Successes tot = 200
    /\ runResultsAt σ2 = runResultsAt Heaps.before.
Proof.
  assert (Hfirst : calculateTotalResults_on (H := Instances.stats)
                     (H0 := Instances.time) (H1 := Instances.runtime)
                     Heaps.results 5000000000 2 Heaps.before
                   = Some (1%nat, Heaps.after))
    by (vm_compute; reflexivity).
  assert (Hruns : runResultsAt Heaps.after = runResultsAt Heaps.before)
    by (vm_compute; reflexivity).
  pose proof (calculateTotalResults_deterministic (H := Instances.stats)
                (H0 := Instances.time) (H1 := Instances.runtime)
                Heaps.before Heaps.after
                Heaps.results 5000000000 2) as Hdet.
  rewrite Hfirst in Hdet.
  destruct (calculateTotalResults_on Heaps.results 5000000000 2 Heaps.after)
    as [[p2 σ2]|].
  - destruct Hdet as ((tot & Htot1 & Htot2) & _ & Hfresh2 & _ & Hkept2).
    + intros l _. rewrite Hruns. reflexivity.
    + destruct Hkept2 as (Hruns2 & Hsub & _).
      exists 1%nat, p2, σ2, tot. split; [reflexivity|]. split; [reflexivity|].
      split; [intros <-; congruence|].
      split; [eapply lookup_weaken; eassumption|]. split; [exact Htot2|].
      split; [|congruence].
      vm_compute in Htot1. injection Htot1 as <-. reflexivity.
  - destruct Hdet. intros l _. rewrite Hruns. reflexivity.
Defined.

(** ** The collector *)

Lemma collect_loop_Some (remaining : nat) :
  forall (i : nat) (resCh : list RunResults.t)
         (results : list (option RunResults.t)),
    (i + remaining <= length results)%nat ->
    (remaining <= length resCh)%nat ->
    collect_loop remaining i resCh results
    = Some (overwrite i (Some <$> take remaining resCh) results,
            drop remaining resCh).
Proof.
  induction remaining as [|remaining IH]; intros i resCh results Hi Hch; simpl.
  - rewrite overwrite_nil. reflexivity.
  - destruct resCh as [|r resCh]; simpl in *; [lia|].
    rewrite store_at_Some by lia. simpl.
    rewrite IH by (rewrite ?length_insert; lia).
    rewrite overwrite_cons by lia. reflexivity.
Qed.

Lemma collect_loop_None (remaining : nat) :
  forall (i : nat) (resCh : list RunResults.t)
         (results : list (option RunResults.t)),
    (i + remaining <= length results)%nat ->
    (length resCh < remaining)%nat ->
    collect_loop remaining i resCh results = None.
Proof.
  induction remaining as [|remaining IH]; intros i resCh results Hi Hch; simpl.
  - lia.
  - destruct resCh as [|r resCh]; simpl in *; [reflexivity|].
    rewrite store_at_Some by lia. simpl.
    apply IH; rewrite ?length_insert; lia.
Qed.

(** A worker that reports puts its own [ID] in its results. *)
Lemma Run_reports_ID `{GoStats} `{GoTime} (clock : nat -> Z) (c : Client.t)
    (msgs : list Message.t) :
  0 < Client.ReceiveCount c <= Int64.max ->
  (Z.to_nat (Client.ReceiveCount c) <= length msgs)%nat ->
  exists r st rest,
    Run clock c msgs = Reported r st rest /\ RunResults.ID r = Client.ID c.
Proof.
  intros Hn Hlen.
  destruct (Run_reports clock c msgs Hn Hlen) as (duration & st & Hrun & _).
  eexists _, st, _. split; [exact Hrun|]. reflexivity.
Qed.

(** C9 (as amended): for [W >= 1] workers and every order [arrival] in
    which their [W] results arrive, the collector is blocked as long as
    fewer than [W] results have arrived, and with the [W]-th it returns the
    results in the order of arrival: the element at position [k] is the
    [k]-th result to arrive, whatever its worker ID. *)
Theorem collect_arrival_order (W : Z) (arrival : list RunResults.t) :
  1 <= W ->
  Z.of_nat (length arrival) = W ->
  collect W arrival = Some (Some <$> arrival, [])
  /\ (forall n : nat, (n < length arrival)%nat ->
      collect W (take n arrival) = None).
Proof.
  intros HW Hlen. unfold collect. split.
  - rewrite collect_loop_Some by (rewrite ?length_replicate; lia).
    rewrite take_ge, drop_ge by lia.
    rewrite overwrite_all by (rewrite length_fmap, length_replicate; lia).
    reflexivity.
  - intros n Hn. apply collect_loop_None.
    + rewrite length_replicate. lia.
    + rewrite length_take. lia.
Qed.

(** Two workers, the second done first. *)
Lemma collect_arrival_order_witness :
  collect 2 [Examples.results 1 1 0 10 10; Examples.results 0 1 0 20 20]
  = Some ([Some (Examples.results 1 1 0 10 10);
           Some (Examples.results 0 1 0 20 20)], []).
Proof.
  apply (collect_arrival_order 2
           [Examples.results 1 1 0 10 10; Examples.results 0 1 0 20 20]).
  - discriminate.
  - reflexivity.
Defined.

(** C9 (as stated) fails: of two started workers, expecting one message
    each, the worker 1 reports first.  The collector returns with the
    results of worker 1 at position 0 and those of worker 0 at position 1:
    the list is not indexed by worker ID. *)
Lemma collect_not_indexed_by_worker_ID :
  exists c0 c1 r0 r1 st0 st1 results,
    startClients (Examples.flags 1 2) None = [c0; c1]
    /\ Run (H := Instances.stats) (H0 := Instances.time) Examples.clock c0
         [Examples.message 0 20] = Reported r0 st0 []
    /\ Run (H := Instances.stats) (H0 := Instances.time) Examples.clock c1
         [Examples.message 0 10] = Reported r1 st1 []
    /\ RunResults.ID r0 = 0
    /\ RunResults.ID r1 = 1
    /\ collect 2 [r1; r0] = Some (results, [])
    /\ results !! 0%nat = Some (Some r1)
    /\ results !! 1%nat = Some (Some r0)
    /\ ~ indexed_by_worker_ID results.
Proof.
  do 7 eexists.
  split; [reflexivity|].
  split; [vm_compute; reflexivity|].
  split; [vm_compute; reflexivity|].
  split; [reflexivity|]. split; [reflexivity|].
  split; [reflexivity|].
  split; [reflexivity|]. split; [reflexivity|].
  intros Hidx. specialize (Hidx 0%nat _ eq_refl). discriminate Hidx.
Qed.

(** ** The whole run *)

(** With valid flags and the results of the [clients] workers arrived,
    [main] aggregates them in the order of arrival and prints. *)
Lemma main_prints `{GoStats} `{GoTime} (f : Flags) (tlsConfig : option string)
    (start finish : Z) (arrival : list RunResults.t) :
  1 <= clients f ->
  1 <= count f ->
  clientCert f = EmptyString ->
  clientKey f = EmptyString ->
  Z.of_nat (length arrival) = clients f ->
  exists totals,
    calculateTotalResults (Some <$> arrival) (time_Since finish start)
      (clients f) = Some totals
    /\ main f tlsConfig start finish arrival = Prints (Some <$> arrival) totals.
Proof.
  intros Hclients Hcount Hcert Hkey Hlen. unfold main.
  destruct (Z.ltb_spec (clients f) 1); [lia|].
  destruct (Z.ltb_spec (count f) 1); [lia|].
  rewrite Hcert, Hkey. simpl.
  unfold collect.
  rewrite collect_loop_Some by (rewrite ?length_replicate; lia).
  rewrite take_ge by lia.
  rewrite overwrite_all by (rewrite length_fmap, length_replicate; lia).
  destruct arrival as [|first rest]; [simpl in Hlen; lia|].
  rewrite calculateTotalResults_Some. eauto.
Qed.

(** * Further properties *)

(** ** The worker, in full *)

Lemma progress_lines_S (c : Client.t) (k : nat) :
  progress_lines c (S k)
  = progress_lines c k
    ++ (if Z.rem (Z.of_nat (S k)) 100 =? 0
        then [LogProgress (Client.ID c) (Z.of_nat (S k)) (Client.ReceiveCount c)]
        else []).
Proof.
  unfold progress_lines.
  rewrite seq_S, fmap_app, filter_app, fmap_app. f_equal.
  change (Z.of_nat <$> [(1 + k)%nat]) with [Z.of_nat (S k)].
  rewrite filter_cons, filter_nil.
  destruct (Z.eqb_spec (Z.rem (Z.of_nat (S k)) 100) 0) as [Heq|Hne].
  - rewrite decide_True by exact Heq. reflexivity.
  - rewrite decide_False by exact Hne. reflexivity.
Qed.

Section WorkerTrace.

Context `{GoStats} `{GoTime}.

Variable clock : nat -> Z.
Variable c : Client.t.

Lemma latch_clock (pre : list Message.t) (st : RunState) :
  clock_latched clock pre st ->
  started (latch clock st) = Some (clock 0)
  /\ clockReads (latch clock st) = 1%nat.
Proof.
  unfold latch. intros [(_ & Hs & Hk)|(Hs & Hk)]; rewrite Hs; simpl.
  - rewrite Hk. auto.
  - auto.
Qed.

Lemma progress_clock (st : RunState) :
  clockReads (progress c st) = clockReads st.
Proof.
  unfold progress. destruct (Int64.rem (receivedSoFar st) 100 =? 0); auto.
Qed.

Lemma progress_lines_logged (k : nat) (st : RunState) :
  receivedSoFar st = Z.of_nat (S k) ->
  logged st = progress_lines c k ->
  logged (progress c st) = progress_lines c (S k).
Proof.
  intros Hn Hl. rewrite progress_lines_S. unfold progress, Int64.rem.
  rewrite Hn. destruct (Z.rem (Z.of_nat (S k)) 100 =? 0); simpl.
  - rewrite Hl. reflexivity.
  - rewrite Hl, app_nil_r. reflexivity.
Qed.

(** The loop invariant with the log and the clock: the elapsed time is
    taken between the first two readings of the clock, and the log holds
    the progress lines. *)
Lemma Run_loop_trace (msgs : list Message.t) :
  forall (pre : list Message.t) (st : RunState),
    Client.ReceiveCount c <= Int64.max ->
    receivedSoFar st = Z.of_nat (length pre) ->
    Z.of_nat (length pre) < Client.ReceiveCount c ->
    receivedMessages st = slots c pre ->
    (Z.to_nat (Client.ReceiveCount c) - length pre <= length msgs)%nat ->
    logged st = progress_lines c (length pre) ->
    clock_latched clock pre st ->
    exists st',
      Run_loop clock c msgs st
      = Reported
          (results_of c (runResults st)
             (pre ++ take (Z.to_nat (Client.ReceiveCount c) - length pre) msgs)
             (time_Since (clock 1%nat) (clock 0%nat)))
          st'
          (drop (Z.to_nat (Client.ReceiveCount c) - length pre) msgs)
      /\ logged st' = progress_lines c (Z.to_nat (Client.ReceiveCount c)).
Proof.
  induction msgs as [|m rest IH];
    intros pre st Hmax Hn Hlt Hslots Hlen Hlog Hclk.
  - simpl in Hlen. lia.
  - simpl. unfold iteration.
    rewrite (capture_stores c m pre st) by assumption. simpl.
    set (st1 := mkRunState _ _ _ _ _ _).
    assert (Hpre : length (pre ++ [m]) = S (length pre))
      by (rewrite length_app; simpl; lia).
    destruct (latch_clock pre st1 Hclk) as (Ls & Lk).
    destruct (latch_keeps clock st1) as (Lr & Lm & Lc & Ll).
    destruct (progress_keeps c (latch clock st1)) as (Pr & Ps & Pm & Pc).
    pose proof (progress_clock (latch clock st1)) as Pk.
    assert (Pl : logged (progress c (latch clock st1))
                 = progress_lines c (S (length pre))).
    { apply progress_lines_logged.
      - rewrite Lc. simpl. lia.
      - rewrite Ll. exact Hlog. }
    rewrite Pc, Lc. simpl.
    destruct (Z.leb_spec (Client.ReceiveCount c)
                (Z.of_nat (length (pre ++ [m])))) as [Hdone|Hmore].
    + destruct (calculate_full clock c (pre ++ [m])
                  (progress c (latch clock st1)) (clock 0%nat))
        as (st' & Hcalc & Hm' & Hc' & Hl').
      * lia.
      * rewrite Pm, Lm. simpl. apply slots_full. lia.
      * rewrite Pc, Lc. simpl. lia.
      * rewrite Ps. exact Ls.
      * rewrite Hcalc. simpl.
        replace (Z.to_nat (Client.ReceiveCount c) - length pre)%nat
          with 1%nat by lia.
        simpl. rewrite take_0, drop_0, Pr, Lr, Pk, Lk. simpl.
        exists st'. split; [reflexivity|].
        rewrite Hl', Pl. f_equal. lia.
    + destruct (IH (pre ++ [m]) (progress c (latch clock st1)))
        as (st' & Hrun & Hl').
      * exact Hmax.
      * rewrite Pc, Lc. reflexivity.
      * lia.
      * rewrite Pm, Lm. reflexivity.
      * simpl in Hlen. lia.
      * rewrite Pl, Hpre. reflexivity.
      * right. rewrite Ps, Pk. auto.
      * rewrite Hrun, Pr, Lr. simpl.
        replace (Z.to_nat (Client.ReceiveCount c) - length pre)%nat
          with (S (Z.to_nat (Client.ReceiveCount c) - length (pre ++ [m])))
          by lia.
        simpl. rewrite <- app_assoc in *. simpl in *.
        exists st'. split; [reflexivity|assumption].
Qed.

(** While slots are free and the channel runs dry, the worker waits, with
    what it received stored. *)
Lemma Run_loop_blocks (msgs : list Message.t) :
  forall (pre : list Message.t) (st : RunState),
    Client.ReceiveCount c <= Int64.max ->
    receivedSoFar st = Z.of_nat (length pre) ->
    receivedMessages st = slots c pre ->
    Z.of_nat (length pre + length msgs) < Client.ReceiveCount c ->
    exists st',
      Run_loop clock c msgs st = Blocked st'
      /\ receivedSoFar st' = Z.of_nat (length pre + length msgs)
      /\ receivedMessages st' = slots c (pre ++ msgs)
      /\ runResults st' = runResults st.
Proof.
  induction msgs as [|m rest IH]; intros pre st Hmax Hn Hslots Hlt.
  - simpl. exists st. rewrite Nat.add_0_r, app_nil_r. auto.
  - simpl in *. unfold iteration.
    rewrite (capture_stores c m pre st) by (assumption || lia). simpl.
    set (st1 := mkRunState _ _ _ _ _ _).
    assert (Hpre : length (pre ++ [m]) = S (length pre))
      by (rewrite length_app; simpl; lia).
    destruct (latch_keeps clock st1) as (Lr & Lm & Lc & Ll).
    destruct (progress_keeps c (latch clock st1)) as (Pr & Ps & Pm & Pc).
    rewrite Pc, Lc. simpl.
    destruct (Z.leb_spec (Client.ReceiveCount c)
                (Z.of_nat (length (pre ++ [m])))) as [Hdone|Hmore]; [lia|].
    destruct (IH (pre ++ [m]) (progress c (latch clock st1)))
      as (st' & Hrun & Hc' & Hm' & Hr').
    + exact Hmax.
    + rewrite Pc, Lc. reflexivity.
    + rewrite Pm, Lm. reflexivity.
    + lia.
    + exists st'. split; [exact Hrun|].
      rewrite <- app_assoc in Hm'. simpl in Hm'.
      split; [rewrite Hc'; f_equal; lia|]. split; [exact Hm'|].
      rewrite Hr', Pr, Lr. reflexivity.
Qed.

End WorkerTrace.

(** [Run] with at least [ReceiveCount] messages, in full: the results, the
    elapsed time and the log. *)
Lemma Run_trace `{GoStats} `{GoTime} (clock : nat -> Z) (c : Client.t)
    (msgs : list Message.t) :
  0 < Client.ReceiveCount c <= Int64.max ->
  (Z.to_nat (Client.ReceiveCount c) <= length msgs)%nat ->
  exists st,
    Run clock c msgs
    = Reported
        (results_of c (runResults (Run_init c))
           (take (Z.to_nat (Client.ReceiveCount c)) msgs)
           (time_Since (clock 1%nat) (clock 0%nat)))
        st (drop (Z.to_nat (Client.ReceiveCount c)) msgs)
    /\ logged st = progress_lines c (Z.to_nat (Client.ReceiveCount c)).
Proof.
  intros [Hpos Hmax] Hlen. unfold Run.
  destruct (Z.ltb_spec (Client.ReceiveCount c) 0); [lia|].
  destruct (Run_loop_trace clock c msgs [] (Run_init c))
    as (st & Hrun & Hl); simpl; try lia; try reflexivity.
  - unfold slots. simpl. rewrite Nat.sub_0_r. reflexivity.
  - left. auto.
  - rewrite Nat.sub_0_r in *. simpl in *. eauto.
Qed.

(** X1: a worker whose channel delivers fewer than [ReceiveCount] messages
    never reports.  On a machine that allocates its slot array it waits on
    its channel, with every message it received counted and stored in
    arrival order, and the other slots nil; on a machine that does not, it
    panics before it receives a message. *)
Theorem Run_waits `{GoStats} `{GoTime} `{GoRuntime} (clock : nat -> Z)
    (c : Client.t) (msgs : list Message.t) :
  Client.ReceiveCount c <= Int64.max ->
  Z.of_nat (length msgs) < Client.ReceiveCount c ->
  (allocates (Client.ReceiveCount c) = true ->
   exists st,
     Run_on_machine clock c msgs = Blocked st
     /\ receivedSoFar st = Z.of_nat (length msgs)
     /\ receivedMessages st
        = (Some <$> msgs)
          ++ replicate (Z.to_nat (Client.ReceiveCount c) - length msgs) None
     /\ runResults st = runResults (Run_init c))
  /\ (allocates (Client.ReceiveCount c) = false ->
      Run_on_machine clock c msgs = Panicked).
Proof.
  intros Hmax Hlt. unfold Run_on_machine. split; intros ->; [|reflexivity].
  unfold Run.
  destruct (Z.ltb_spec (Client.ReceiveCount c) 0); [lia|].
  destruct (Run_loop_blocks clock c msgs [] (Run_init c))
    as (st & Hrun & Hc & Hm & Hr); simpl; try lia; try reflexivity.
  - unfold slots. simpl. rewrite Nat.sub_0_r. reflexivity.
  - exists st. simpl in *. auto.
Qed.

(** Three messages expected, two delivered. *)
Lemma Run_waits_witness :
  exists st,
    Run_on_machine (H := Instances.stats) (H0 := Instances.time)
      (H1 := Instances.runtime) Examples.clock
      (Examples.client 0 3) [Examples.message 0 10; Examples.message 5 25]
    = Blocked st
    /\ receivedSoFar st = 2
    /\ receivedMessages st
       = [Some (Examples.message 0 10); Some (Examples.message 5 25); None].
Proof.
  destruct (Run_waits (H := Instances.stats) (H0 := Instances.time)
              (H1 := Instances.runtime) Examples.clock (Examples.client 0 3)
              [Examples.message 0 10; Examples.message 5 25])
    as [Hwaits _].
  - vm_compute. discriminate.
  - reflexivity.
  - destruct Hwaits as (st & Hrun & Hc & Hm & _); [reflexivity|].
    exists st. auto.
Defined.

(** X2: whenever a worker with a positive [ReceiveCount] reports, it has
    received exactly [ReceiveCount] messages, all stored: the rest of the
    channel is untouched, [Successes] is [ReceiveCount] and [Duplicates]
    is 0. *)
Theorem Run_Reported_inv `{GoStats} `{GoTime} (clock : nat -> Z)
    (c : Client.t) (msgs : list Message.t) (r : RunResults.t)
    (st : RunState) (rest : list Message.t) :
  0 < Client.ReceiveCount c <= Int64.max ->
  Run clock c msgs = Reported r st rest ->
  msgs = take (Z.to_nat (Client.ReceiveCount c)) msgs ++ rest
  /\ Z.of_nat (length (take (Z.to_nat (Client.ReceiveCount c)) msgs))
     = Client.ReceiveCount c
  /\ receivedMessages st = Some <$> take (Z.to_nat (Client.ReceiveCount c)) msgs
  /\ RunResults.ID r = Client.ID c
  /\ RunResults.Successes r = Client.ReceiveCount c
  /\ RunResults.Duplicates r = 0.
Proof.
  intros Hn Hrun.
  destruct (le_lt_dec (Z.to_nat (Client.ReceiveCount c)) (length msgs))
    as [Hlen|Hlen].
  - destruct (Run_reports clock c msgs Hn Hlen)
      as (duration & st' & Hrun' & Hc & Hm & _).
    rewrite Hrun' in Hrun. injection Hrun as <- <- <-.
    split; [symmetry; apply take_drop|].
    split; [rewrite length_take; lia|].
    split; [exact Hm|]. simpl. rewrite length_take.
    split; [reflexivity|]. split; [lia|reflexivity].
  - destruct (Run_loop_blocks clock c msgs [] (Run_init c))
      as (st' & Hrun' & _); simpl; try lia; try reflexivity.
    + unfold slots. simpl. rewrite Nat.sub_0_r. reflexivity.
    + unfold Run in Hrun.
      destruct (Z.ltb_spec (Client.ReceiveCount c) 0); [lia|].
      rewrite Hrun' in Hrun. discriminate Hrun.
Qed.

(** The report of a worker that expected one message and had two. *)
Lemma Run_Reported_inv_witness :
  exists r st rest,
    Run (H := Instances.stats) (H0 := Instances.time) Examples.clock
      (Examples.client 7 1) [Examples.message 0 10; Examples.message 5 30]
    = Reported r st rest
    /\ RunResults.ID r = 7
    /\ RunResults.Successes r = 1
    /\ RunResults.Duplicates r = 0.
Proof.
  edestruct (Run_Reported_inv (H := Instances.stats) (H0 := Instances.time)
               Examples.clock (Examples.client 7 1)
               [Examples.message 0 10; Examples.message 5 30])
    as (_ & _ & _ & Hid & Hs & Hd).
  - vm_compute. split; [reflexivity | discriminate].
  - vm_compute. reflexivity.
  - eexists _, _, _. split; [vm_compute; reflexivity|].
    split; [exact Hid|]. split; [exact Hs | exact Hd].
Defined.

(** X3: the results of a worker are those of the first [ReceiveCount]
    messages in arrival order: [MsgTimeMin], [MsgTimeMax] and [MsgTimeMean]
    are the GoStats minimum, maximum and mean of their latencies
    [ReceivedAt - GeneratedAt], and [ID] is the client's. *)
Theorem Run_latency_statistics `{GoStats} `{GoTime} (clock : nat -> Z)
    (c : Client.t) (msgs : list Message.t) :
  0 < Client.ReceiveCount c <= Int64.max ->
  (Z.to_nat (Client.ReceiveCount c) <= length msgs)%nat ->
  let sample := latencies_of (take (Z.to_nat (Client.ReceiveCount c)) msgs) in
  exists r st rest,
    Run clock c msgs = Reported r st rest
    /\ RunResults.ID r = Client.ID c
    /\ RunResults.MsgTimeMin r = StatsMin sample
    /\ RunResults.MsgTimeMax r = StatsMax sample
    /\ RunResults.MsgTimeMean r = StatsMean sample.
Proof.
  intros Hn Hlen sample.
  destruct (Run_trace clock c msgs Hn Hlen) as (st & Hrun & _).
  eexists _, st, _. split; [exact Hrun|]. simpl. auto.
Qed.

(** Latencies of 10, 20 and 30 ns. *)
Lemma Run_latency_statistics_witness :
  exists r st rest,
    Run (H := Instances.stats) (H0 := Instances.time) Examples.clock
      (Examples.client 0 3)
      [Examples.message 0 10; Examples.message 5 25; Examples.message 5 35]
    = Reported r st rest
    /\ RunResults.MsgTimeMin r = 10%float
    /\ RunResults.MsgTimeMax r = 30%float
    /\ RunResults.MsgTimeMean r = 20%float.
Proof.
  destruct (Run_latency_statistics (H := Instances.stats)
              (H0 := Instances.time) Examples.clock (Examples.client 0 3)
              [Examples.message 0 10; Examples.message 5 25;
               Examples.message 5 35])
    as (r & st & rest & Hrun & _ & Hmin & Hmax & Hmean).
  - vm_compute. split; [reflexivity | discriminate].
  - vm_compute. lia.
  - exists r, st, rest. split; [exact Hrun|].
    rewrite Hmin, Hmax, Hmean. vm_compute. auto.
Defined.

(** X4: the run time of a worker is the time between its first two
    readings of the clock, the first at its first message and the second
    when the last slot is filled, whatever the number of messages; and
    [MsgsPerSec] is [ReceiveCount] over that time in seconds. *)
Theorem Run_timing `{GoStats} `{GoTime} (clock : nat -> Z)
    (c : Client.t) (msgs : list Message.t) :
  0 < Client.ReceiveCount c <= Int64.max ->
  (Z.to_nat (Client.ReceiveCount c) <= length msgs)%nat ->
  exists r st rest,
    Run clock c msgs = Reported r st rest
    /\ RunResults.RunTime r
       = Seconds (time_Since (clock 1%nat) (clock 0%nat))
    /\ RunResults.MsgsPerSec r
       = (Float64.of_int64 (Client.ReceiveCount c)
          / Seconds (time_Since (clock 1%nat) (clock 0%nat)))%float.
Proof.
  intros Hn Hlen.
  destruct (Run_trace clock c msgs Hn Hlen) as (st & Hrun & _).
  eexists _, st, _. split; [exact Hrun|]. simpl.
  rewrite length_take. split; [reflexivity|]. do 2 f_equal. lia.
Qed.

(** Three messages in one second: three messages per second. *)
Lemma Run_timing_witness :
  exists r st rest,
    Run (H := Instances.stats) (H0 := Instances.time) Examples.clock
      (Examples.client 0 3)
      [Examples.message 0 10; Examples.message 5 25; Examples.message 5 35]
    = Reported r st rest
    /\ RunResults.RunTime r = 1%float
    /\ RunResults.MsgsPerSec r = 3%float.
Proof.
  destruct (Run_timing (H := Instances.stats) (H0 := Instances.time)
              Examples.clock (Examples.client 0 3)
              [Examples.message 0 10; Examples.message 5 25;
               Examples.message 5 35])
    as (r & st & rest & Hrun & Htime & Hrate).
  - vm_compute. split; [reflexivity | discriminate].
  - vm_compute. lia.
  - exists r, st, rest. split; [exact Hrun|].
    rewrite Htime, Hrate. vm_compute. auto.
Defined.

(** X5: the log of a worker that reports holds the progress lines and
    nothing else: one line for each multiple of 100 up to [ReceiveCount],
    in order, each with the count reached. *)
Theorem Run_progress_log `{GoStats} `{GoTime} (clock : nat -> Z)
    (c : Client.t) (msgs : list Message.t) :
  0 < Client.ReceiveCount c <= Int64.max ->
  (Z.to_nat (Client.ReceiveCount c) <= length msgs)%nat ->
  exists r st rest,
    Run clock c msgs = Reported r st rest
    /\ logged st
       = (λ n, LogProgress (Client.ID c) n (Client.ReceiveCount c))
           <$> filter (λ n, Z.rem n 100 = 0)
                 (Z.of_nat <$> seq 1 (Z.to_nat (Client.ReceiveCount c))).
Proof.
  intros Hn Hlen.
  destruct (Run_trace clock c msgs Hn Hlen) as (st & Hrun & Hl).
  eexists _, st, _. split; [exact Hrun | exact Hl].
Qed.

(** Two hundred and fifty messages: a line at 100 and a line at 200. *)
Lemma Run_progress_log_witness :
  exists r st rest,
    Run (H := Instances.stats) (H0 := Instances.time) Examples.clock
      (Examples.client 0 250) (replicate 250 (Examples.message 0 10))
    = Reported r st rest
    /\ logged st = [LogProgress 0 100 250; LogProgress 0 200 250].
Proof.
  destruct (Run_progress_log (H := Instances.stats) (H0 := Instances.time)
              Examples.clock (Examples.client 0 250)
              (replicate 250 (Examples.message 0 10)))
    as (r & st & rest & Hrun & Hl).
  - vm_compute. split; [reflexivity | discriminate].
  - vm_compute. lia.
  - exists r, st, rest. split; [exact Hrun|].
    rewrite Hl. vm_compute. reflexivity.
Defined.

(** ** The subscriber and the worker *)

(** X8: only the frames that decode count towards [ReceiveCount].  A
    worker reports as soon as [ReceiveCount] of its frames have decoded,
    whatever frames that do not decode come between them, with the first
    [ReceiveCount] decoded messages stored in the order of the frames. *)
Theorem worker_counts_decoded `{GoStats} `{GoTime} `{GoJSON}
    (clock : nat -> Z) (c : Client.t) (frames : list Frame) :
  0 < Client.ReceiveCount c <= Int64.max ->
  let decoded := (receiveMessages c frames).1 in
  (Z.to_nat (Client.ReceiveCount c) <= length decoded)%nat ->
  exists r st rest,
    worker clock c frames = Reported r st rest
    /\ RunResults.Successes r = Client.ReceiveCount c
    /\ receivedMessages st
       = Some <$> take (Z.to_nat (Client.ReceiveCount c)) decoded.
Proof.
  intros Hn decoded Hlen. unfold worker. fold decoded.
  destruct (Run_reports clock c decoded Hn Hlen)
    as (duration & st & Hrun & _ & Hm & _).
  eexists _, st, _. split; [exact Hrun|]. split; [|exact Hm].
  simpl. rewrite length_take. lia.
Qed.

(** Five frames of which three decode, for a worker that expects two. *)
Lemma worker_counts_decoded_witness :
  exists r st rest,
    worker (H := Instances.stats) (H0 := Instances.time) (H1 := Instances.json)
      Examples.clock (Examples.client 0 2)
      [Examples.bad_frame 4; Examples.good_frame 5; Examples.bad_frame 6;
       Examples.good_frame 7; Examples.good_frame 8]
    = Reported r st rest
    /\ RunResults.Successes r = 2
    /\ receivedMessages st
       = [Some (Message.mk Payload.zero 5); Some (Message.mk Payload.zero 7)].
Proof.
  destruct (worker_counts_decoded (H := Instances.stats)
              (H0 := Instances.time) (H1 := Instances.json)
              Examples.clock (Examples.client 0 2)
              [Examples.bad_frame 4; Examples.good_frame 5;
               Examples.bad_frame 6; Examples.good_frame 7;
               Examples.good_frame 8])
    as (r & st & rest & Hrun & Hs & Hm).
  - vm_compute. split; [reflexivity | discriminate].
  - vm_compute. lia.
  - exists r, st, rest. split; [exact Hrun|]. split; [exact Hs | exact Hm].
Defined.

(** ** The aggregator, in full *)

(** The order [<] of [float64] is transitive and irreflexive. *)
Lemma SFltb_trans (a b c : spec_float) :
  SFltb a b = true -> SFltb b c = true -> SFltb a c = true.
Proof.
  unfold SFltb.
  destruct a as [sa|sa| |sa ma ea], b as [sb|sb| |sb mb eb],
           c as [sc|sc| |sc mc ec];
    simpl; try discriminate; try reflexivity;
    try (destruct sa; simpl; try discriminate; try reflexivity);
    try (destruct sb; simpl; try discriminate; try reflexivity);
    try (destruct sc; simpl; try discriminate; try reflexivity).
  all: destruct (Z.compare_spec ea eb), (Z.compare_spec eb ec),
         (Z.compare_spec ea ec); try discriminate; try reflexivity; try lia.
  all: subst; rewrite ?Pos.compare_cont_spec; simpl;
    destruct (Pos.compare_spec ma mb), (Pos.compare_spec mb mc),
      (Pos.compare_spec ma mc); simpl; try discriminate; try reflexivity;
      try lia.
Qed.

Lemma SFltb_irrefl (a : spec_float) : SFltb a a = false.
Proof.
  unfold SFltb. destruct a as [s|s| |s m e]; simpl; try reflexivity.
  - destruct s; reflexivity.
  - destruct s;
      rewrite Z.compare_refl, ?Pos.compare_cont_spec, Pos.compare_refl;
      reflexivity.
Qed.

Lemma Float64_lt_trans (a b c : float) :
  Float64.lt a b = true -> Float64.lt b c = true -> Float64.lt a c = true.
Proof. unfold Float64.lt. rewrite !FloatAxioms.ltb_spec. apply SFltb_trans. Qed.

Lemma Float64_lt_irrefl (a : float) : Float64.lt a a = false.
Proof. unfold Float64.lt. rewrite FloatAxioms.ltb_spec. apply SFltb_irrefl. Qed.

Lemma Float64_gt_trans (a b c : float) :
  Float64.gt a b = true -> Float64.gt b c = true -> Float64.gt a c = true.
Proof. unfold Float64.gt. intros Hab Hbc. exact (Float64_lt_trans c b a Hbc Hab). Qed.

Lemma Float64_gt_irrefl (a : float) : Float64.gt a a = false.
Proof. apply Float64_lt_irrefl. Qed.

(** A running extremum: the fold [if R x a then x else a] of a transitive,
    irreflexive [R] ends on the start or on an element that beats the
    start, and no element beats the result. *)
Section Extremum.

Variable R : float -> float -> bool.
Hypothesis R_trans : forall a b c, R a b = true -> R b c = true -> R a c = true.
Hypothesis R_irrefl : forall a, R a a = false.

Lemma foldl_extremum (l : list float) :
  forall a : float,
    let m := foldl (λ a x, if R x a then x else a) a l in
    (m = a \/ (R m a = true /\ m ∈ l))
    /\ (forall x, x ∈ l -> R x m = false).
Proof.
  induction l as [|x l IH]; intros a; simpl.
  - split; [auto|]. intros x Hx. apply elem_of_nil in Hx. destruct Hx.
  - destruct (IH (if R x a then x else a)) as [Hm Hbeat]. simpl in *.
    set (m := foldl (λ a x, if R x a then x else a) (if R x a then x else a) l)
      in *.
    destruct (R x a) eqn:Hxa.
    + split.
      * right. destruct Hm as [->|[Hmx Hin]].
        -- split; [exact Hxa | apply elem_of_cons; auto].
        -- split; [exact (R_trans _ _ _ Hmx Hxa) | apply elem_of_cons; auto].
      * intros y Hy. apply elem_of_cons in Hy as [->|Hy]; [|auto].
        destruct Hm as [->|[Hmx _]]; [apply R_irrefl|].
        destruct (R x m) eqn:Hxm; [|reflexivity].
        rewrite <- (R_irrefl x). symmetry. exact (R_trans _ _ _ Hxm Hmx).
    + split.
      * destruct Hm as [->|[Hma Hin]]; [auto|].
        right. split; [exact Hma | apply elem_of_cons; auto].
      * intros y Hy. apply elem_of_cons in Hy as [->|Hy]; [|auto].
        destruct Hm as [->|[Hma _]]; [exact Hxa|].
        destruct (R x m) eqn:Hxm; [|reflexivity].
        rewrite <- Hxa. symmetry. exact (R_trans _ _ _ Hxm Hma).
Qed.

End Extremum.

Lemma first_nil_pointer {A : Type} (l : list (option A)) :
  None ∈ l -> exists pre post, l = (Some <$> pre) ++ None :: post.
Proof.
  induction l as [|[x|] l IH]; intros Hin.
  - apply elem_of_nil in Hin. destruct Hin.
  - apply elem_of_cons in Hin as [Hin|Hin]; [discriminate|].
    destruct (IH Hin) as (pre & post & ->). exists (x :: pre), post. reflexivity.
  - exists [], l. reflexivity.
Qed.

Lemma all_pointers_or_nil {A : Type} (l : list (option A)) :
  (exists xs, l = Some <$> xs) \/ None ∈ l.
Proof.
  induction l as [|[x|] l [[xs ->]|Hin]].
  - left. exists []. reflexivity.
  - left. exists (x :: xs). reflexivity.
  - right. apply elem_of_cons. auto.
  - right. apply elem_of_cons. auto.
  - right. apply elem_of_cons. auto.
Qed.

Section AggregatorEdges.

Context `{GoStats} `{GoTime}.

(** The loop stops on a nil pointer, wherever it is. *)
Lemma aggregate_loop_nil_pointer (pre : list RunResults.t)
    (post : list (option RunResults.t)) :
  forall (i : nat) (s : AggState),
    aggregate_loop i ((Some <$> pre) ++ None :: post) s = None.
Proof.
  induction pre as [|r pre IH]; intros i s; simpl; [reflexivity|].
  destruct (accumulate i r s) as [s'|]; simpl; [apply IH | reflexivity].
Qed.

Lemma accumulate_totals_TotalRunTime (rs : list RunResults.t) :
  forall t, TotalResults.TotalRunTime (foldl accumulate_totals t rs)
            = TotalResults.TotalRunTime t.
Proof. induction rs as [|r rs IH]; intros t; simpl; [|rewrite IH]; done. Qed.

Lemma accumulate_totals_TotalMsgsPerSec (rs : list RunResults.t) :
  forall t, TotalResults.TotalMsgsPerSec (foldl accumulate_totals t rs)
            = foldl PrimFloat.add (TotalResults.TotalMsgsPerSec t)
                (RunResults.MsgsPerSec <$> rs).
Proof. induction rs as [|r rs IH]; intros t; simpl; [|rewrite IH]; done. Qed.

End AggregatorEdges.

(** X9: the aggregator panics exactly when the list of results is empty
    or holds a nil pointer; on every other input it returns an aggregate. *)
Theorem calculateTotalResults_panics_iff `{GoStats} `{GoTime}
    (results : list (option RunResults.t)) (totalTime sampleSize : Z) :
  calculateTotalResults results totalTime sampleSize = None
  <-> results = [] \/ None ∈ results.
Proof.
  split.
  - intros Hnone. destruct (all_pointers_or_nil results) as [[rs ->]|Hin];
      [|auto].
    destruct rs as [|first rest]; [auto|].
    rewrite calculateTotalResults_Some in Hnone. discriminate Hnone.
  - intros [->|Hin]; [reflexivity|].
    destruct (first_nil_pointer results Hin) as (pre & post & ->).
    unfold calculateTotalResults.
    destruct pre as [|first pre]; [reflexivity|].
    change (mjoin (((Some <$> first :: pre) ++ None :: post) !! 0%nat))
      with (Some first).
    cbn [mbind option_bind].
    rewrite aggregate_loop_nil_pointer. reflexivity.
Qed.

(** X10: the aggregate's [TotalRunTime] is the total time in seconds;
    [AvgRunTime], [MsgTimeMeanAvg] and [AvgMsgsPerSec] are the GoStats mean
    of the workers' [RunTime], [MsgTimeMean] and [MsgsPerSec], taken in the
    order of the results; [TotalMsgsPerSec] is the [float64] sum of the
    workers' [MsgsPerSec], added from the left. *)
Theorem calculateTotalResults_means `{GoStats} `{GoTime}
    (rs : list RunResults.t) (totalTime sampleSize : Z) :
  rs <> [] ->
  exists tot,
    calculateTotalResults (Some <$> rs) totalTime sampleSize = Some tot
    /\ TotalResults.TotalRunTime tot = Seconds totalTime
    /\ TotalResults.AvgRunTime tot = StatsMean (RunResults.RunTime <$> rs)
    /\ TotalResults.MsgTimeMeanAvg tot
       = StatsMean (RunResults.MsgTimeMean <$> rs)
    /\ TotalResults.AvgMsgsPerSec tot
       = StatsMean (RunResults.MsgsPerSec <$> rs)
    /\ TotalResults.TotalMsgsPerSec tot
       = foldl PrimFloat.add 0%float (RunResults.MsgsPerSec <$> rs).
Proof.
  intros Hrs. destruct rs as [|first rest]; [done|].
  rewrite calculateTotalResults_Some. eexists. split; [reflexivity|].
  cbn [final_totals totals runTimes msgTimeMeans msgsPerSecs
       TotalResults.TotalRunTime TotalResults.AvgRunTime
       TotalResults.MsgTimeMeanAvg TotalResults.AvgMsgsPerSec
       TotalResults.TotalMsgsPerSec].
  rewrite accumulate_totals_TotalRunTime, accumulate_totals_TotalMsgsPerSec.
  repeat (split; [reflexivity|]). reflexivity.
Qed.

(** Three workers at 100 messages per second for one second each, in a run
    of five seconds. *)
Lemma calculateTotalResults_means_witness :
  exists tot,
    calculateTotalResults (H := Instances.stats) (H0 := Instances.time)
      [Some (Examples.results 0 100 0 10 30);
       Some (Examples.results 1 100 2 20 40);
       Some (Examples.results 2 100 1 5 35)] 5000000000 3
    = Some tot
    /\ TotalResults.TotalRunTime tot = 5%float
    /\ TotalResults.AvgRunTime tot = 1%float
    /\ TotalResults.AvgMsgsPerSec tot = 100%float
    /\ TotalResults.TotalMsgsPerSec tot = 300%float.
Proof.
  destruct (calculateTotalResults_means (H := Instances.stats)
              (H0 := Instances.time)
              [Examples.results 0 100 0 10 30; Examples.results 1 100 2 20 40;
               Examples.results 2 100 1 5 35] 5000000000 3)
    as (tot & Htot & Htime & Hrun & _ & Havg & Hsum).
  - discriminate.
  - exists tot. split; [exact Htot|].
    rewrite Htime, Hrun, Havg, Hsum. vm_compute. auto.
Defined.

(** X11: the aggregate's [MsgTimeMin] is the least of the workers'
    [MsgTimeMin], negative or not: it is the [MsgTimeMin] of one of the
    workers, and no worker's [MsgTimeMin] is less than it. *)
Theorem calculateTotalResults_MsgTimeMin_least `{GoStats} `{GoTime}
    (rs : list RunResults.t) (totalTime sampleSize : Z) :
  rs <> [] ->
  exists tot,
    calculateTotalResults (Some <$> rs) totalTime sampleSize = Some tot
    /\ TotalResults.MsgTimeMin tot ∈ (RunResults.MsgTimeMin <$> rs)
    /\ (forall r, r ∈ rs ->
        Float64.lt (RunResults.MsgTimeMin r) (TotalResults.MsgTimeMin tot)
        = false).
Proof.
  intros Hrs. destruct rs as [|first rest]; [done|].
  rewrite calculateTotalResults_Some. eexists. split; [reflexivity|].
  cbn [final_totals totals TotalResults.MsgTimeMin].
  rewrite accumulate_totals_MsgTimeMin.
  cbn [initial_totals TotalResults.MsgTimeMin].
  destruct (foldl_extremum Float64.lt Float64_lt_trans Float64_lt_irrefl
              (RunResults.MsgTimeMin <$> first :: rest)
              (RunResults.MsgTimeMin first)) as [Hm Hbeat].
  split.
  - destruct Hm as [->|[_ Hin]]; [|exact Hin].
    rewrite fmap_cons. apply elem_of_cons. auto.
  - intros r Hr. apply Hbeat. apply list_elem_of_fmap. eauto.
Qed.

(** Latencies that are all negative: the least is -9. *)
Lemma calculateTotalResults_MsgTimeMin_least_witness :
  exists tot,
    calculateTotalResults (H := Instances.stats) (H0 := Instances.time)
      [Some (Examples.results 0 100 0 (-7) (-5));
       Some (Examples.results 1 100 0 (-9) (-6))] 5000000000 2
    = Some tot
    /\ TotalResults.MsgTimeMin tot = (-9)%float.
Proof.
  destruct (calculateTotalResults_MsgTimeMin_least (H := Instances.stats)
              (H0 := Instances.time)
              [Examples.results 0 100 0 (-7) (-5);
               Examples.results 1 100 0 (-9) (-6)] 5000000000 2)
    as (tot & Htot & Hin & Hleast).
  - discriminate.
  - exists tot. split; [exact Htot|].
    simpl in Hin. apply elem_of_cons in Hin as [Hm|Hin].
    + specialize (Hleast (Examples.results 1 100 0 (-9) (-6))).
      rewrite Hm in Hleast.
      assert (Hfalse : true = false)
        by (apply Hleast; apply elem_of_cons; right; apply elem_of_cons; auto).
      discriminate Hfalse.
    + apply elem_of_cons in Hin as [Hm|Hin]; [exact Hm|].
      apply elem_of_nil in Hin. destruct Hin.
Defined.

(** X12: the aggregate's [MsgTimeMax] is 0 or the [MsgTimeMax], above 0,
    of one of the workers, and no worker's [MsgTimeMax] is greater than
    it.  So it is the greatest of the workers' [MsgTimeMax] as soon as one
    of them is above 0, and it is 0 when none is. *)
Theorem calculateTotalResults_MsgTimeMax_bound `{GoStats} `{GoTime}
    (rs : list RunResults.t) (totalTime sampleSize : Z) :
  rs <> [] ->
  exists tot,
    calculateTotalResults (Some <$> rs) totalTime sampleSize = Some tot
    /\ (TotalResults.MsgTimeMax tot = 0%float
        \/ (Float64.gt (TotalResults.MsgTimeMax tot) 0%float = true
            /\ TotalResults.MsgTimeMax tot ∈ (RunResults.MsgTimeMax <$> rs)))
    /\ (forall r, r ∈ rs ->
        Float64.gt (RunResults.MsgTimeMax r) (TotalResults.MsgTimeMax tot)
        = false)
    /\ ((forall r, r ∈ rs -> Float64.gt (RunResults.MsgTimeMax r) 0%float = false) ->
        TotalResults.MsgTimeMax tot = 0%float).
Proof.
  intros Hrs. destruct rs as [|first rest]; [done|].
  rewrite calculateTotalResults_Some. eexists. split; [reflexivity|].
  cbn [final_totals totals TotalResults.MsgTimeMax].
  rewrite accumulate_totals_MsgTimeMax.
  cbn [initial_totals TotalResults.MsgTimeMax].
  destruct (foldl_extremum Float64.gt Float64_gt_trans Float64_gt_irrefl
              (RunResults.MsgTimeMax <$> first :: rest)
              Float64.zero) as [Hm Hbeat].
  split; [exact Hm|]. split.
  - intros r Hr. apply Hbeat. apply list_elem_of_fmap. eauto.
  - intros Hnone. destruct Hm as [Hm|[Hgt Hin]]; [exact Hm|].
    apply list_elem_of_fmap in Hin as (r & Heq & Hr).
    rewrite Heq in Hgt. change Float64.zero with 0%float in Hgt.
    rewrite (Hnone r Hr) in Hgt. discriminate Hgt.
Qed.

(** Latencies that are all negative: [MsgTimeMax] is 0. *)
Lemma calculateTotalResults_MsgTimeMax_bound_witness :
  exists tot,
    calculateTotalResults (H := Instances.stats) (H0 := Instances.time)
      [Some (Examples.results 0 100 0 (-7) (-5));
       Some (Examples.results 1 100 0 (-9) (-6))] 5000000000 2
    = Some tot
    /\ TotalResults.MsgTimeMax tot = 0%float.
Proof.
  destruct (calculateTotalResults_MsgTimeMax_bound (H := Instances.stats)
              (H0 := Instances.time)
              [Examples.results 0 100 0 (-7) (-5);
               Examples.results 1 100 0 (-9) (-6)] 5000000000 2)
    as (tot & Htot & _ & _ & Hzero).
  - discriminate.
  - exists tot. split; [exact Htot|]. apply Hzero.
    intros r Hr.
    apply elem_of_cons in Hr as [->|Hr]; [reflexivity|].
    apply elem_of_cons in Hr as [->|Hr]; [reflexivity|].
    apply elem_of_nil in Hr. destruct Hr.
Defined.

(** ** The collector and [main], in full *)


Lemma collect_cases (W : Z) (resCh : list RunResults.t) :
  1 <= W ->
  (W <= Z.of_nat (length resCh) ->
   collect W resCh
   = Some (Some <$> take (Z.to_nat W) resCh, drop (Z.to_nat W) resCh))
  /\ (Z.of_nat (length resCh) < W -> collect W resCh = None).
Proof.
  intros HW. unfold collect. split; intros Hlen.
  - rewrite collect_loop_Some by (rewrite ?length_replicate; lia).
    rewrite overwrite_all
      by (rewrite length_fmap, length_take, length_replicate; lia).
    reflexivity.
  - apply collect_loop_None; rewrite ?length_replicate; lia.
Qed.

(** X14: the collector takes the first [W] results that arrive, in the
    order of arrival, and leaves on the channel whatever arrives after
    them. *)
Theorem collect_takes_first (W : Z) (resCh : list RunResults.t) :
  1 <= W ->
  W <= Z.of_nat (length resCh) ->
  collect W resCh
  = Some (Some <$> take (Z.to_nat W) resCh, drop (Z.to_nat W) resCh).
Proof.
  intros HW Hlen. unfold collect.
  rewrite collect_loop_Some by (rewrite ?length_replicate; lia).
  f_equal. f_equal. apply overwrite_all.
  rewrite length_fmap, length_take, length_replicate. lia.
Qed.

(** Two results expected, three sent. *)
Lemma collect_takes_first_witness :
  collect 2 [Examples.results 1 1 0 10 10; Examples.results 0 1 0 20 20;
             Examples.results 2 1 0 30 30]
  = Some ([Some (Examples.results 1 1 0 10 10);
           Some (Examples.results 0 1 0 20 20)],
          [Examples.results 2 1 0 30 30]).
Proof.
  apply (collect_takes_first 2
           [Examples.results 1 1 0 10 10; Examples.results 0 1 0 20 20;
            Examples.results 2 1 0 30 30]).
  - discriminate.
  - vm_compute. discriminate.
Defined.

Section MainFacts.

Context `{GoStats} `{GoTime}.

(** With valid flags [main] collects, then aggregates. *)
Lemma main_valid (f : Flags) (tlsConfig : option string) (start finish : Z)
    (resCh : list RunResults.t) :
  valid_flags f ->
  main f tlsConfig start finish resCh
  = match collect (clients f) resCh with
    | None => Hangs
    | Some (results, _) =>
        match calculateTotalResults results (time_Since finish start)
                (clients f) with
        | None => MainPanics
        | Some totals => Prints results totals
        end
    end.
Proof.
  intros (Hclients & Hcount & Hpair). unfold main.
  destruct (Z.ltb_spec (clients f) 1); [lia|].
  destruct (Z.ltb_spec (count f) 1); [lia|].
  destruct (String.eqb_spec (clientCert f) EmptyString) as [Hcert|Hcert],
           (String.eqb_spec (clientKey f) EmptyString) as [Hkey|Hkey];
    simpl; try reflexivity.
  - destruct Hkey. apply Hpair, Hcert.
  - destruct Hcert. apply Hpair, Hkey.
Qed.

(** With other flags [main] stops before it starts a client. *)
Lemma main_invalid (f : Flags) (tlsConfig : option string) (start finish : Z)
    (resCh : list RunResults.t) :
  ~ valid_flags f ->
  main f tlsConfig start finish resCh = FatalClients (clients f)
  \/ main f tlsConfig start finish resCh = FatalCount (count f)
  \/ main f tlsConfig start finish resCh = FatalKeyMissing
  \/ main f tlsConfig start finish resCh = FatalCertMissing.
Proof.
  intros Hinvalid. unfold main.
  destruct (Z.ltb_spec (clients f) 1); [auto|].
  destruct (Z.ltb_spec (count f) 1); [auto|].
  destruct (String.eqb_spec (clientCert f) EmptyString) as [Hcert|Hcert],
           (String.eqb_spec (clientKey f) EmptyString) as [Hkey|Hkey];
    simpl; auto.
  - destruct Hinvalid. unfold valid_flags. tauto.
  - destruct Hinvalid. unfold valid_flags. tauto.
Qed.

(** The aggregate of the first [W >= 1] of at least [W] results. *)
Lemma calculateTotalResults_take (W : Z) (resCh : list RunResults.t)
    (totalTime sampleSize : Z) :
  1 <= W ->
  W <= Z.of_nat (length resCh) ->
  exists totals,
    calculateTotalResults (Some <$> take (Z.to_nat W) resCh) totalTime
      sampleSize = Some totals.
Proof.
  intros HW Hlen.
  destruct (take (Z.to_nat W) resCh) as [|first rest] eqn:Htake.
  - apply (f_equal length) in Htake. rewrite length_take in Htake.
    simpl in Htake. lia.
  - rewrite calculateTotalResults_Some. eauto.
Qed.

End MainFacts.



(** X16: [main] prints only after it validated the flags and received
    [clients] results: what it prints is the first [clients] results in
    the order of arrival, none of them nil, and their aggregate. *)
Theorem main_Prints_inv `{GoStats} `{GoTime} (f : Flags)
    (tlsConfig : option string) (start finish : Z)
    (resCh : list RunResults.t) (results : list (option RunResults.t))
    (totals : TotalResults.t) :
  main f tlsConfig start finish resCh = Prints results totals ->
  valid_flags f
  /\ clients f <= Z.of_nat (length resCh)
  /\ results = Some <$> take (Z.to_nat (clients f)) resCh
  /\ calculateTotalResults results (time_Since finish start) (clients f)
     = Some totals.
Proof.
  intros Hmain.
  assert (Hvalid : valid_flags f).
  { unfold main in Hmain.
    destruct (Z.ltb_spec (clients f) 1); [discriminate Hmain|].
    destruct (Z.ltb_spec (count f) 1); [discriminate Hmain|].
    destruct (String.eqb_spec (clientCert f) EmptyString) as [Hcert|Hcert],
             (String.eqb_spec (clientKey f) EmptyString) as [Hkey|Hkey];
      simpl in Hmain; try discriminate Hmain;
      unfold valid_flags; (split; [lia|]); (split; [lia|]); tauto. }
  split; [exact Hvalid|].
  rewrite main_valid in Hmain by exact Hvalid.
  destruct Hvalid as (Hclients & _).
  destruct (collect_cases (clients f) resCh Hclients) as [Hsome Hnone].
  destruct (Z.le_gt_cases (clients f) (Z.of_nat (length resCh)))
    as [Hlen|Hlen].
  - rewrite Hsome in Hmain by exact Hlen.
    destruct (calculateTotalResults
                (Some <$> take (Z.to_nat (clients f)) resCh)
                (time_Since finish start) (clients f)) as [t|] eqn:Htot;
      [|discriminate Hmain].
    injection Hmain as <- <-. auto.
  - rewrite Hnone in Hmain by lia. discriminate Hmain.
Qed.

(** Two clients, two results, the second client's first. *)
Lemma main_Prints_inv_witness :
  exists totals,
    main (H := Instances.stats) (H0 := Instances.time) Runs.flags None
      0 5000000000 [Runs.results_of_worker 1; Runs.results_of_worker 0]
    = Prints [Some (Runs.results_of_worker 1); Some (Runs.results_of_worker 0)]
        totals
    /\ calculateTotalResults (H := Instances.stats) (H0 := Instances.time)
         [Some (Runs.results_of_worker 1); Some (Runs.results_of_worker 0)]
         5000000000 2
       = Some totals.
Proof.
  edestruct (main_Prints_inv (H := Instances.stats) (H0 := Instances.time)
               Runs.flags None 0 5000000000
               [Runs.results_of_worker 1; Runs.results_of_worker 0])
    as (_ & _ & Hresults & Hcalc).
  - vm_compute. reflexivity.
  - eexists. split; [vm_compute; reflexivity|]. exact Hcalc.
Defined.

(** X17: [main] never panics: the aggregator is only called on the
    [clients >= 1] results that were collected, none of them nil. *)
Theorem main_never_panics `{GoStats} `{GoTime} (f : Flags)
    (tlsConfig : option string) (start finish : Z)
    (resCh : list RunResults.t) :
  main f tlsConfig start finish resCh <> MainPanics.
Proof.
  intros Hmain. unfold main in Hmain.
  destruct (Z.ltb_spec (clients f) 1) as [|Hclients]; [discriminate Hmain|].
  destruct (Z.ltb_spec (count f) 1); [discriminate Hmain|].
  destruct (negb (clientCert f =? EmptyString)%string
            && (clientKey f =? EmptyString)%string); [discriminate Hmain|].
  destruct ((clientCert f =? EmptyString)%string
            && negb (clientKey f =? EmptyString)%string);
    [discriminate Hmain|].
  destruct (collect_cases (clients f) resCh Hclients) as [Hsome Hnone].
  destruct (Z.le_gt_cases (clients f) (Z.of_nat (length resCh)))
    as [Hlen|Hlen].
  - rewrite Hsome in Hmain by exact Hlen.
    destruct (calculateTotalResults_take (clients f) resCh
                (time_Since finish start) (clients f) Hclients Hlen)
      as [totals Htot].
    rewrite Htot in Hmain. discriminate Hmain.
  - rewrite Hnone in Hmain by lia. discriminate Hmain.
Qed.

(** ** The whole run *)




